(** * Starter-pack order lifecycle

  A shallow embedding of [services/starterPackService.ts] (the class
  [StarterPackService]) and of the two places of the React screens that
  decide which lifecycle calls an operator or a customer can trigger:
  the "Update Status" buttons of [StarterPackOrdersAdmin] and the
  estimated-delivery line of the order tracker.

  Conventions of the embedding.
  - A JavaScript [Date] is its time value: an integer number of
    milliseconds since the epoch of magnitude at most 8.64e15, or NaN
    (an Invalid Date), written [None].  On that range the arithmetic of
    the source is exact integer arithmetic.
  - A timestamp column (an ISO-8601 string) is represented by the time
    value it denotes; [new Date().toISOString()] is the clock reading
    passed in as [now].
  - A [string] parameter that the source hands to [new Date(...)] and
    uses in no other way is represented by the [Date] it parses to.
  - The table [starter_pack_orders] is a list of rows.  A call of the
    store client either applies the request or reports an error, which
    the service rethrows; the reply of the store is an input of every
    operation. *)

From stdpp Require Import gmap strings list pretty sorting.
From Stdlib Require Import ZArith Lia Ascii.

#[local] Open Scope Z_scope.

(** ** JavaScript dates and numbers *)

Module JsDate.

(** A number that is an integer or NaN. *)
Definition num := option Z.

(** A Date object: [Some tv] for the time value [tv], [None] for an
    Invalid Date. *)
Definition t := option Z.

(** The largest time value of a Date (ECMAScript, Time Values and Time
    Range): 100,000,000 days on either side of the epoch. *)
Definition maxTime : Z := 8640000000000000.

(** [TimeClip]: what [new Date(n)] keeps of a finite integer [n]. *)
Definition timeClip (tv : Z) : t :=
  if bool_decide (Z.abs tv ≤ maxTime) then Some tv else None.

(** [new Date(n)] for a number [n]. *)
Definition ofNumber (n : num) : t := n ≫= timeClip.

(** [new Date(s)] for a stored timestamp [s]. *)
Definition parse (s : Z) : t := timeClip s.

(** [d.getTime()] *)
Definition getTime (d : t) : num := d.

(** [x + k] and [x - y] on numbers: NaN is absorbing. *)
Definition add (x y : num) : num :=
  match x, y with Some a, Some b => Some (a + b) | _, _ => None end.
Definition sub (x y : num) : num :=
  match x, y with Some a, Some b => Some (a - b) | _, _ => None end.

(** [Math.floor(x / k)] for an integer [x] and a positive integer
    constant [k]. *)
Definition floorDiv (x : num) (k : Z) : num := (λ a, a `div` k) <$> x.

(** [x < k], false when [x] is NaN. *)
Definition ltb (x : num) (k : Z) : bool :=
  match x with Some a => bool_decide (a < k) | None => false end.

(** [x > k], false when [x] is NaN. *)
Definition gtb (x : num) (k : Z) : bool :=
  match x with Some a => bool_decide (k < a) | None => false end.

(** [`${x}`] for an integer or NaN [x]. *)
Definition toString (x : num) : string :=
  match x with Some a => pretty a | None => "NaN" end.

(** [a > b] on Dates: both are converted to their time values, and a
    comparison with NaN is false. *)
Definition gt (a b : t) : bool :=
  match a, b with
  | Some x, Some y => bool_decide (y < x)
  | _, _ => false
  end.

End JsDate.

(** ** Reading a message *)

Module Text.

Definition isDigit (c : ascii) : bool :=
  let n := nat_of_ascii c in
  (48 <=? n)%nat && (n <=? 57)%nat.

(** Some character of [s] is a decimal digit. *)
Fixpoint hasDigit (s : string) : bool :=
  match s with
  | EmptyString => false
  | String c s' => isDigit c || hasDigit s'
  end.

(** [needle] occurs in [s]. *)
Fixpoint contains (needle s : string) : bool :=
  String.prefix needle s
  || match s with
     | EmptyString => false
     | String _ s' => contains needle s'
     end.

End Text.

(** ** The service *)

Module StarterPackService.

(** [order_status]: the union of the six string literals. *)
Inductive OrderStatus : Type :=
| pending
| received
| preparing
| configuring
| out_for_delivery
| delivered.

(** [payment_status]: ['pending' | 'completed' | 'failed']. *)
Inductive PaymentStatus : Type :=
| payment_pending
| payment_completed
| payment_failed.

#[global] Instance OrderStatus_eq_dec : EqDecision OrderStatus.
Proof. solve_decision. Defined.

#[global] Instance PaymentStatus_eq_dec : EqDecision PaymentStatus.
Proof. solve_decision. Defined.

(** The string literal behind a status value. *)
Definition status_name (s : OrderStatus) : string :=
  match s with
  | pending => "pending"
  | received => "received"
  | preparing => "preparing"
  | configuring => "configuring"
  | out_for_delivery => "out_for_delivery"
  | delivered => "delivered"
  end.

Record DeliveryAddress : Type := mkAddress {
  addressLine1 : string;
  addressLine2 : string;
  city : string;
  emirate : string;
  contactNumber : string
}.

(** A row of [starter_pack_orders].  An optional member of the
    interface is an [option]. *)
Record StarterPackOrder : Type := mkOrder {
  id : string;
  user_id : string;
  restaurant_id : option string;
  order_status : OrderStatus;
  includes_tablet : bool;
  tablet_cost : Z;
  total_cost : Z;
  payment_status : PaymentStatus;
  stripe_payment_intent_id : option string;
  estimated_delivery : option Z;
  delivered_at : option Z;
  delivery_address_line1 : option string;
  delivery_address_line2 : option string;
  delivery_city : option string;
  delivery_emirate : option string;
  delivery_contact_number : option string;
  proof_of_delivery_url : option string;
  status_timestamps : option (gmap string Z);
  created_at : Z;
  updated_at : Z
}.

Definition Table : Type := list StarterPackOrder.

(** *** The store client *)

(** The [error] member of a reply of the store client. *)
Inductive StoreReply : Type :=
| StoreOk
| StoreError (message : string).

(** What an [async] method of the service settles to. *)
Inductive Outcome (A : Type) : Type :=
| Resolved (a : A)
| Thrown (message : string).
Arguments Resolved {A} a.
Arguments Thrown {A} message.

Definition fails {A : Type} (r : Outcome A) : Prop :=
  match r with Resolved _ => False | Thrown _ => True end.

(** The object handed to [.update(...)]: the columns it names.  The
    service names no column outside these five in any update. *)
Record UpdateData : Type := mkUpdate {
  set_order_status : option OrderStatus;
  set_payment_status : option PaymentStatus;
  set_stripe_payment_intent_id : option string;
  set_delivered_at : option Z;
  set_proof_of_delivery_url : option string
}.

(** The row after [.update(u)]: a named column takes the new value,
    every other column keeps its own. *)
Definition applyUpdate (u : UpdateData) (o : StarterPackOrder) : StarterPackOrder :=
  {| id := id o;
     user_id := user_id o;
     restaurant_id := restaurant_id o;
     order_status := default (order_status o) (set_order_status u);
     includes_tablet := includes_tablet o;
     tablet_cost := tablet_cost o;
     total_cost := total_cost o;
     payment_status := default (payment_status o) (set_payment_status u);
     stripe_payment_intent_id :=
       match set_stripe_payment_intent_id u with
       | Some i => Some i
       | None => stripe_payment_intent_id o
       end;
     estimated_delivery := estimated_delivery o;
     delivered_at :=
       match set_delivered_at u with
       | Some d => Some d
       | None => delivered_at o
       end;
     delivery_address_line1 := delivery_address_line1 o;
     delivery_address_line2 := delivery_address_line2 o;
     delivery_city := delivery_city o;
     delivery_emirate := delivery_emirate o;
     delivery_contact_number := delivery_contact_number o;
     proof_of_delivery_url :=
       match set_proof_of_delivery_url u with
       | Some p => Some p
       | None => proof_of_delivery_url o
       end;
     status_timestamps := status_timestamps o;
     created_at := created_at o;
     updated_at := updated_at o |}.

(** [.update(u).eq('id', orderId)]: every row whose id is [orderId] is
    updated, the others are left alone. *)
Definition updateWhereId (u : UpdateData) (orderId : string) (tbl : Table) : Table :=
  (λ o, if decide (id o = orderId) then applyUpdate u o else o) <$> tbl.

(** [if (error) throw error] after an update. *)
Definition settleUpdate (reply : StoreReply) (u : UpdateData) (orderId : string)
    (tbl : Table) : Outcome Table :=
  match reply with
  | StoreOk => Resolved (updateWhereId u orderId tbl)
  | StoreError e => Thrown e
  end.

(** *** Order creation *)

Definition STARTER_PACK_BASE_COST : Z := 0.
Definition TABLET_COST : Z := 499.

(** The columns the insert of [createOrder] does not name: the store
    fills them (generated id and timestamps, column defaults).  Their
    values come back in the inserted row. *)
Record StoreFilled : Type := mkFilled {
  filled_id : string;
  filled_stripe_payment_intent_id : option string;
  filled_estimated_delivery : option Z;
  filled_delivered_at : option Z;
  filled_proof_of_delivery_url : option string;
  filled_created_at : Z;
  filled_updated_at : Z
}.

(** The reply to [.insert(...).select().single()]: the stored row, given
    here by the columns the store filled, or an error. *)
Inductive InsertReply : Type :=
| InsertOk (filled : StoreFilled)
| InsertError (message : string).

(** [restaurantId || null]: an absent or empty id is stored as null. *)
Definition orNull (restaurantId : option string) : option string :=
  match restaurantId with
  | Some r => if decide (r = "") then None else Some r
  | None => None
  end.

(** [JSON.stringify(o)] for an object [o] whose values are timestamps.
    A JSON text is represented by the object it denotes. *)
Record JsonText : Type := mkJsonText { denoted : gmap string Z }.

Definition JSON_stringify (o : gmap string Z) : JsonText := mkJsonText o.

(** Modelled from the spec: what the column [status_timestamps] holds
    once it was sent a JSON text.  The store is not part of the source.
    The spec has the audit trail of an order as a mapping from stage
    name to instant, and the row type of the source reads the column
    back as a [Record<string, string>]: the column holds the object
    the text denotes. *)
Definition storedJson (sent : JsonText) : option (gmap string Z) := Some (denoted sent).

(** The row stored by the insert of [createOrder].  The audit trail is
    sent as the JSON text of the object with the one key [received]. *)
Definition insertedOrder (filled : StoreFilled) (now : Z) (userId : string)
    (includesTablet : bool) (deliveryAddress : DeliveryAddress)
    (restaurantId : option string) : StarterPackOrder :=
  let tabletCost := if includesTablet then TABLET_COST else 0 in
  let totalCost := STARTER_PACK_BASE_COST + tabletCost in
  {| id := filled_id filled;
     user_id := userId;
     restaurant_id := orNull restaurantId;
     order_status := received;
     includes_tablet := includesTablet;
     tablet_cost := tabletCost;
     total_cost := totalCost;
     payment_status := payment_completed;
     stripe_payment_intent_id := filled_stripe_payment_intent_id filled;
     estimated_delivery := filled_estimated_delivery filled;
     delivered_at := filled_delivered_at filled;
     delivery_address_line1 := Some (addressLine1 deliveryAddress);
     delivery_address_line2 := Some (addressLine2 deliveryAddress);
     delivery_city := Some (city deliveryAddress);
     delivery_emirate := Some (emirate deliveryAddress);
     delivery_contact_number := Some (contactNumber deliveryAddress);
     proof_of_delivery_url := filled_proof_of_delivery_url filled;
     status_timestamps := storedJson (JSON_stringify {[ "received" := now ]});
     created_at := filled_created_at filled;
     updated_at := filled_updated_at filled |}.

(** [createOrder]: the stored row is returned and is a new row of the
    table; an error of the store is rethrown. *)
Definition createOrder (reply : InsertReply) (now : Z) (userId : string)
    (includesTablet : bool) (deliveryAddress : DeliveryAddress)
    (restaurantId : option string) (tbl : Table) : Outcome (StarterPackOrder * Table) :=
  match reply with
  | InsertOk filled =>
      let data :=
        insertedOrder filled now userId includesTablet deliveryAddress restaurantId in
      Resolved (data, tbl ++ [data])
  | InsertError e => Thrown e
  end.

(** *** Updates *)

(** The [status] parameter of [updateOrderPaymentStatus]:
    ['completed' | 'failed']. *)
Inductive SettlementStatus : Type :=
| settled_completed
| settled_failed.

Definition paymentOf (status : SettlementStatus) : PaymentStatus :=
  match status with
  | settled_completed => payment_completed
  | settled_failed => payment_failed
  end.

(** The [updateData] object built by [updateOrderPaymentStatus]. *)
Definition paymentUpdateData (paymentIntentId : string) (status : SettlementStatus)
    : UpdateData :=
  let updateData :=
    {| set_order_status := None;
       set_payment_status := Some (paymentOf status);
       set_stripe_payment_intent_id := Some paymentIntentId;
       set_delivered_at := None;
       set_proof_of_delivery_url := None |} in
  match status with
  | settled_completed =>
      {| set_order_status := Some received;
         set_payment_status := set_payment_status updateData;
         set_stripe_payment_intent_id := set_stripe_payment_intent_id updateData;
         set_delivered_at := set_delivered_at updateData;
         set_proof_of_delivery_url := set_proof_of_delivery_url updateData |}
  | settled_failed => updateData
  end.

Definition updateOrderPaymentStatus (reply : StoreReply) (orderId paymentIntentId : string)
    (status : SettlementStatus) (tbl : Table) : Outcome Table :=
  settleUpdate reply (paymentUpdateData paymentIntentId status) orderId tbl.

(** The [updateData] object built by [updateOrderStatus]. *)
Definition statusUpdateData (now : Z) (status : OrderStatus) : UpdateData :=
  let updateData :=
    {| set_order_status := Some status;
       set_payment_status := None;
       set_stripe_payment_intent_id := None;
       set_delivered_at := None;
       set_proof_of_delivery_url := None |} in
  if decide (status = delivered) then
    {| set_order_status := set_order_status updateData;
       set_payment_status := set_payment_status updateData;
       set_stripe_payment_intent_id := set_stripe_payment_intent_id updateData;
       set_delivered_at := Some now;
       set_proof_of_delivery_url := set_proof_of_delivery_url updateData |}
  else updateData.

Definition updateOrderStatus (reply : StoreReply) (now : Z) (orderId : string)
    (status : OrderStatus) (tbl : Table) : Outcome Table :=
  settleUpdate reply (statusUpdateData now status) orderId tbl.

Definition proofUpdateData (proofUrl : string) : UpdateData :=
  {| set_order_status := None;
     set_payment_status := None;
     set_stripe_payment_intent_id := None;
     set_delivered_at := None;
     set_proof_of_delivery_url := Some proofUrl |}.

Definition updateProofOfDelivery (reply : StoreReply) (orderId proofUrl : string)
    (tbl : Table) : Outcome Table :=
  settleUpdate reply (proofUpdateData proofUrl) orderId tbl.

(** *** Pure helpers *)

Definition calculateTotalCost (includesTablet : bool) : Z :=
  STARTER_PACK_BASE_COST + (if includesTablet then TABLET_COST else 0).

Definition statuses : list string :=
  ["pending"; "received"; "preparing"; "configuring"; "out_for_delivery"; "delivered"].

(** [l.indexOf(x)], counting from [i]: the first position that holds
    [x], or -1. *)
Fixpoint indexOfFrom (x : string) (l : list string) (i : Z) : Z :=
  match l with
  | [] => -1
  | y :: l' => if decide (y = x) then i else indexOfFrom x l' (i + 1)
  end.

Definition getStatusIndex (status : string) : Z := indexOfFrom status statuses 0.

Definition calculateEstimatedDelivery (orderDate : JsDate.t) : JsDate.t :=
  let orderTime := orderDate in
  JsDate.ofNumber (JsDate.add (JsDate.getTime orderTime) (Some (9 * 60 * 60 * 1000))).

(** [isDelayed]; [now] is the reading of the clock taken by
    [new Date()]. *)
Definition isDelayed (now : Z) (orderDate : JsDate.t) (currentStatus : string)
    (estimatedDelivery : JsDate.t) : bool :=
  if bool_decide (currentStatus = "delivered" ∨ currentStatus = "out_for_delivery")
  then false
  else
    let eta := estimatedDelivery in
    JsDate.gt (Some now) eta.

Definition slightlyDelayed : string :=
  "Your order is slightly delayed. We apologize for the inconvenience.".

Definition delayedBy (delayHours : JsDate.num) : string :=
  "Your order is delayed by approximately " +:+ JsDate.toString delayHours
  +:+ " hour" +:+ (if JsDate.gtb delayHours 1 then "s" else "")
  +:+ ". Our team is working to get it to you as soon as possible.".

Definition contactSupport : string :=
  "We sincerely apologize for the delay. Your order is taking longer than expected. Please contact support for more information.".

(** The [delayHours] of [getDelayMessage]. *)
Definition delayHoursAt (now : Z) (estimatedDelivery : JsDate.t) : JsDate.num :=
  let eta := estimatedDelivery in
  JsDate.floorDiv (JsDate.sub (JsDate.getTime (Some now)) (JsDate.getTime eta))
                  (1000 * 60 * 60).

Definition getDelayMessage (now : Z) (estimatedDelivery : JsDate.t) : string :=
  let delayHours := delayHoursAt now estimatedDelivery in
  if JsDate.ltb delayHours 1 then slightlyDelayed
  else if JsDate.ltb delayHours 3 then delayedBy delayHours
  else contactSupport.

End StarterPackService.

(** ** The operator screen *)

Module StarterPackOrdersAdmin.
Import StarterPackService.

(** The [value]s of the [statuses] array of the screen, one button
    each.  There is no button for ['pending']. *)
Definition statuses : list OrderStatus :=
  [received; preparing; configuring; out_for_delivery; delivered].

Definition isCompleted (selectedOrder : StarterPackOrder) (value : string) : bool :=
  let currentIndex := getStatusIndex (status_name (order_status selectedOrder)) in
  let statusIndex := getStatusIndex value in
  bool_decide (statusIndex < currentIndex).

Definition isCurrent (selectedOrder : StarterPackOrder) (value : string) : bool :=
  bool_decide (value = status_name (order_status selectedOrder)).

Definition isNext (selectedOrder : StarterPackOrder) (value : string) : bool :=
  let currentIndex := getStatusIndex (status_name (order_status selectedOrder)) in
  let statusIndex := getStatusIndex value in
  bool_decide (statusIndex = currentIndex + 1).

Definition canUpdate (selectedOrder : StarterPackOrder) (value : string) : bool :=
  isNext selectedOrder value || isCurrent selectedOrder value.

(** The [disabled] attribute of the button of [value]. *)
Definition disabled (updating : bool) (selectedOrder : StarterPackOrder) (value : string)
    : bool :=
  updating || (negb (canUpdate selectedOrder value) && negb (isCompleted selectedOrder value)).

(** A click on the button of [status]: there is a button for the
    stages of [statuses] only, a disabled button does nothing, and an
    enabled one runs [handleStatusUpdate], that is [updateOrderStatus]
    on the selected order. *)
Definition clickStatus (reply : StoreReply) (now : Z) (updating : bool)
    (selectedOrder : StarterPackOrder) (status : OrderStatus) (tbl : Table)
    : option (Outcome Table) :=
  if bool_decide (status ∈ statuses)
     && negb (disabled updating selectedOrder (status_name status))
  then Some (updateOrderStatus reply now (id selectedOrder) status tbl)
  else None.

(** The "Proof of Delivery" block is rendered under this condition. *)
Definition proofOfDeliveryShown (selectedOrder : StarterPackOrder) : bool :=
  bool_decide (order_status selectedOrder = delivered).

End StarterPackOrdersAdmin.

(** ** The order tracker of the customer page *)

Module OrderTracking.
Import StarterPackService.

(** The [estimatedDelivery] of the tracker: the stored estimate when
    the row has one, the derived one otherwise. *)
Definition estimatedDelivery (order : StarterPackOrder) : JsDate.t :=
  match estimated_delivery order with
  | Some stored => JsDate.parse stored
  | None => calculateEstimatedDelivery (JsDate.parse (created_at order))
  end.

End OrderTracking.

(** ** Sequences of lifecycle calls *)

Module Lifecycle.
Import StarterPackService.

(** One call of a writing method of the service, with the reply the
    store gave to it. *)
Inductive Call : Type :=
| CreateOrder (reply : InsertReply) (userId : string) (includesTablet : bool)
    (deliveryAddress : DeliveryAddress) (restaurantId : option string)
| UpdateOrderPaymentStatus (reply : StoreReply) (orderId paymentIntentId : string)
    (status : SettlementStatus)
| UpdateOrderStatus (reply : StoreReply) (orderId : string) (status : OrderStatus)
| UpdateProofOfDelivery (reply : StoreReply) (orderId proofUrl : string).

(** The table after a call settled: a call that threw wrote nothing. *)
Definition written {A : Type} (after : A → Table) (r : Outcome A) (tbl : Table) : Table :=
  match r with
  | Resolved a => after a
  | Thrown _ => tbl
  end.

(** The table after an update settled. *)
Definition after (r : Outcome Table) (tbl : Table) : Table := written (λ t, t) r tbl.

(** The table after the call [c] made at the instant [now]. *)
Definition perform (now : Z) (c : Call) (tbl : Table) : Table :=
  match c with
  | CreateOrder reply userId includesTablet deliveryAddress restaurantId =>
      written snd
        (createOrder reply now userId includesTablet deliveryAddress restaurantId tbl) tbl
  | UpdateOrderPaymentStatus reply orderId paymentIntentId status =>
      after (updateOrderPaymentStatus reply orderId paymentIntentId status tbl) tbl
  | UpdateOrderStatus reply orderId status =>
      after (updateOrderStatus reply now orderId status tbl) tbl
  | UpdateProofOfDelivery reply orderId proofUrl =>
      after (updateProofOfDelivery reply orderId proofUrl tbl) tbl
  end.

(** The update objects the service builds at the instant [now]: one
    per updating method. *)
Inductive builds (now : Z) : UpdateData → Prop :=
| builds_payment (paymentIntentId : string) (status : SettlementStatus) :
    builds now (paymentUpdateData paymentIntentId status)
| builds_status (status : OrderStatus) :
    builds now (statusUpdateData now status)
| builds_proof (proofUrl : string) :
    builds now (proofUpdateData proofUrl).

(** The table after a history of calls, oldest first. *)
Fixpoint performAll (history : list (Z * Call)) (tbl : Table) : Table :=
  match history with
  | [] => tbl
  | (now, c) :: rest => performAll rest (perform now c tbl)
  end.

(** The tables the service can produce from the empty table. *)
Definition reachable (tbl : Table) : Prop :=
  ∃ history, tbl = performAll history [].

End Lifecycle.

(** ** Concrete orders *)

Module Samples.
Import StarterPackService.

(** 2024-01-01T00:00:00.000Z and 2024-01-01T09:00:00.000Z as time
    values. *)
Definition newYear2024 : Z := 1704067200000.
Definition nineOClock2024 : Z := 1704099600000.

Definition hour : Z := 1000 * 60 * 60.

Definition address : DeliveryAddress :=
  mkAddress "12 Marina Walk" "Flat 4" "Dubai" "Dubai" "+971500000000".

(** What a store with null column defaults fills in. *)
Definition filled (orderId : string) (createdAt : Z) : StoreFilled :=
  {| filled_id := orderId;
     filled_stripe_payment_intent_id := None;
     filled_estimated_delivery := None;
     filled_delivered_at := None;
     filled_proof_of_delivery_url := None;
     filled_created_at := createdAt;
     filled_updated_at := createdAt |}.

(** The rows [createOrder] stores without and with the tablet. *)
Definition freeOrder : StarterPackOrder :=
  insertedOrder (filled "o1" newYear2024) newYear2024 "u1" false address None.
Definition tabletOrder : StarterPackOrder :=
  insertedOrder (filled "o2" newYear2024) newYear2024 "u1" true address None.

(** A row with an outstanding payment and an empty audit trail, as the
    row type allows it. *)
Definition unpaidOrder : StarterPackOrder :=
  {| id := "o3";
     user_id := "u1";
     restaurant_id := None;
     order_status := pending;
     includes_tablet := true;
     tablet_cost := 499;
     total_cost := 499;
     payment_status := payment_pending;
     stripe_payment_intent_id := None;
     estimated_delivery := None;
     delivered_at := None;
     delivery_address_line1 := Some "12 Marina Walk";
     delivery_address_line2 := Some "Flat 4";
     delivery_city := Some "Dubai";
     delivery_emirate := Some "Dubai";
     delivery_contact_number := Some "+971500000000";
     proof_of_delivery_url := None;
     status_timestamps := Some ∅;
     created_at := newYear2024;
     updated_at := newYear2024 |}.

(** A history: the free order is created, delivered after [d1] hours,
    and then updated to the stage [s] after [d2] hours. *)
Definition deliveredThen (d1 d2 : Z) (s : OrderStatus) : list (Z * Lifecycle.Call) :=
  [ (newYear2024,
     Lifecycle.CreateOrder (InsertOk (filled "o1" newYear2024)) "u1" false address None);
    (newYear2024 + d1 * hour, Lifecycle.UpdateOrderStatus StoreOk "o1" delivered);
    (newYear2024 + d2 * hour, Lifecycle.UpdateOrderStatus StoreOk "o1" s) ].

(** [o] moved to the stage [s] by a status update at [now]. *)
Definition atStage (now : Z) (s : OrderStatus) (o : StarterPackOrder) : StarterPackOrder :=
  applyUpdate (statusUpdateData now s) o.

End Samples.

(** ** The reading methods of the service *)

Module StarterPackReads.
Import StarterPackService.

(** [.order('created_at', { ascending: false })]: a row comes before
    the rows created earlier.  Among rows created at the same instant
    the store is free to choose; the sort used here makes one choice. *)
Definition newerFirst : relation StarterPackOrder :=
  λ o1 o2, created_at o2 ≤ created_at o1.

#[global] Instance newerFirst_dec : RelDecision newerFirst.
Proof. intros o1 o2. unfold newerFirst. apply _. Defined.

#[global] Instance newerFirst_total : Total newerFirst.
Proof. intros o1 o2. unfold newerFirst. lia. Qed.

#[global] Instance newerFirst_trans : Transitive newerFirst.
Proof. intros o1 o2 o3. unfold newerFirst. lia. Qed.

Definition orderByCreatedAtDesc (rows : list StarterPackOrder) : list StarterPackOrder :=
  merge_sort newerFirst rows.

(** [getUserOrders]: the rows of the user whose payment is completed,
    newest first; an error of the store is rethrown. *)
Definition getUserOrders (reply : StoreReply) (userId : string) (tbl : Table)
    : Outcome (list StarterPackOrder) :=
  match reply with
  | StoreOk =>
      Resolved
        (orderByCreatedAtDesc
           (filter (λ o, user_id o = userId ∧ payment_status o = payment_completed) tbl))
  | StoreError e => Thrown e
  end.

(** [getAllOrders]: every row, newest first. *)
Definition getAllOrders (reply : StoreReply) (tbl : Table) : Outcome (list StarterPackOrder) :=
  match reply with
  | StoreOk => Resolved (orderByCreatedAtDesc tbl)
  | StoreError e => Thrown e
  end.

(** What [.maybeSingle()] makes of the selected rows: null for none,
    the row for one, an error for several. *)
Inductive Single : Type :=
| NoRow
| OneRow (o : StarterPackOrder)
| SeveralRows.

Definition maybeSingle (rows : list StarterPackOrder) : Single :=
  match rows with
  | [] => NoRow
  | [o] => OneRow o
  | _ => SeveralRows
  end.

(** [getOrderById]: every error, of the store or of [maybeSingle], is
    caught and answered by null. *)
Definition getOrderById (reply : StoreReply) (orderId : string) (tbl : Table)
    : option StarterPackOrder :=
  match reply with
  | StoreOk =>
      match maybeSingle (filter (λ o, id o = orderId) tbl) with
      | OneRow data => Some data
      | NoRow => None
      | SeveralRows => None
      end
  | StoreError _ => None
  end.

Definition getTabletCost : Z := TABLET_COST.

End StarterPackReads.

(** ** The operator screen: the handler of the status buttons *)

Module AdminHandlers.
Import StarterPackService StarterPackReads.

(** The state of the component that the handler reads and writes, and
    the alerts it raised. *)
Record State : Type := mkState {
  orders : list StarterPackOrder;
  loading : bool;
  selectedOrder : option StarterPackOrder;
  updating : bool;
  alerts : list string
}.

(** [loadOrders]: an error is logged and the list is left as it is. *)
Definition loadOrders (reply : StoreReply) (st : State) (tbl : Table) : State :=
  match getAllOrders reply tbl with
  | Resolved allOrders =>
      {| orders := allOrders; loading := false; selectedOrder := selectedOrder st;
         updating := updating st; alerts := alerts st |}
  | Thrown _ =>
      {| orders := orders st; loading := false; selectedOrder := selectedOrder st;
         updating := updating st; alerts := alerts st |}
  end.

(** [handleStatusUpdate(orderId, newStatus)].  The three replies are
    those of the update, of the listing and of the re-read of the
    order. *)
Definition handleStatusUpdate (updateReply listReply readReply : StoreReply) (now : Z)
    (orderId : string) (newStatus : OrderStatus) (st : State) (tbl : Table)
    : State * Table :=
  match updateOrderStatus updateReply now orderId newStatus tbl with
  | Resolved tbl' =>
      let st1 := loadOrders listReply st tbl' in
      let selected :=
        match selectedOrder st with
        | Some sel =>
            if decide (id sel = orderId) then getOrderById readReply orderId tbl'
            else selectedOrder st1
        | None => selectedOrder st1
        end in
      ({| orders := orders st1; loading := loading st1; selectedOrder := selected;
          updating := false; alerts := alerts st1 |}, tbl')
  | Thrown _ =>
      ({| orders := orders st; loading := loading st; selectedOrder := selectedOrder st;
          updating := false; alerts := alerts st ++ ["Failed to update order status"] |},
       tbl)
  end.

End AdminHandlers.

(** ** The customer page *)

Module StarterPackPage.
Import StarterPackService StarterPackReads.

(** [orders.find(...)]: the first order of the list that is paid and
    not delivered. *)
Definition activeOrder (orders : list StarterPackOrder) : option StarterPackOrder :=
  List.find
    (λ order, bool_decide (payment_status order = payment_completed)
              && negb (bool_decide (order_status order = delivered)))
    orders.

(** The orders of the "Order History" block. *)
Definition deliveredOrders (orders : list StarterPackOrder) : list StarterPackOrder :=
  filter (λ o, order_status o = delivered) orders.

(** The state of the page that [processOrder] writes. *)
Record State : Type := mkState {
  orders : list StarterPackOrder;
  includesTablet : bool;
  pendingAddress : option DeliveryAddress;
  showAddressModal : bool;
  isProcessing : bool;
  error : option string
}.



(** [loadOrders] of the page: an error is logged, the list is kept. *)
Definition loadOrders (reply : StoreReply) (userId : string) (orders0 : list StarterPackOrder)
    (tbl : Table) : list StarterPackOrder :=
  match getUserOrders reply userId tbl with
  | Resolved userOrders => userOrders
  | Thrown _ => orders0
  end.




End StarterPackPage.

(** ** The tracker of an order *)

Module OrderTrackingView.
Import StarterPackService.

(** The [key]s of the [stages] array. *)
Definition stages : list string :=
  ["received"; "preparing"; "configuring"; "out_for_delivery"; "delivered"].

(** [isActive] and [isCurrent] of the stage at position [index] of
    [stages]. *)
Definition isActive (order : StarterPackOrder) (index : nat) : bool :=
  let currentIndex := getStatusIndex (status_name (order_status order)) in
  bool_decide (Z.of_nat index ≤ currentIndex).

Definition isCurrent (order : StarterPackOrder) (index : nat) : bool :=
  let currentIndex := getStatusIndex (status_name (order_status order)) in
  bool_decide (Z.of_nat index = currentIndex).

(** The delay notice of the tracker.  [now] is the clock read by
    [isDelayed], [now'] the one read by [getDelayMessage] later in the
    same rendering.  [None]: [toISOString] throws on an Invalid Date;
    [Some None]: no notice; [Some (Some m)]: the notice [m]. *)
Definition delayNotice (now now' : Z) (order : StarterPackOrder) : option (option string) :=
  match OrderTracking.estimatedDelivery order with
  | None => None
  | Some iso =>
      if isDelayed now (JsDate.parse (created_at order)) (status_name (order_status order))
           (JsDate.parse iso)
      then Some (Some (getDelayMessage now' (JsDate.parse iso)))
      else Some None
  end.

End OrderTrackingView.

(** * Properties *)

Import StarterPackService.

(** ** The store client: what an update does to the table *)

Section Updates.
Context (u : UpdateData) (orderId : string).
Implicit Types (tbl : Table) (o : StarterPackOrder).

Lemma updateWhereId_length tbl : length (updateWhereId u orderId tbl) = length tbl.
Proof. apply length_fmap. Qed.

Lemma updateWhereId_lookup tbl (i : nat) :
  updateWhereId u orderId tbl !! i
  = (λ o, if decide (id o = orderId) then applyUpdate u o else o) <$> tbl !! i.
Proof. apply list_lookup_fmap. Qed.

Lemma updateWhereId_hit tbl (i : nat) o :
  tbl !! i = Some o → id o = orderId →
  updateWhereId u orderId tbl !! i = Some (applyUpdate u o).
Proof.
  intros Hi Hid. rewrite updateWhereId_lookup, Hi. simpl.
  by rewrite decide_True.
Qed.

Lemma updateWhereId_miss tbl (i : nat) o :
  tbl !! i = Some o → id o ≠ orderId →
  updateWhereId u orderId tbl !! i = Some o.
Proof.
  intros Hi Hid. rewrite updateWhereId_lookup, Hi. simpl.
  by rewrite decide_False.
Qed.

Lemma settleUpdate_fails reply tbl :
  fails (settleUpdate reply u orderId tbl) ↔ ∃ e, reply = StoreError e.
Proof.
  destruct reply as [|e]; simpl.
  - split; [tauto | intros [e He]; discriminate].
  - split; [eauto | tauto].
Qed.

Lemma after_settleUpdate reply tbl :
  Lifecycle.after (settleUpdate reply u orderId tbl) tbl
  = match reply with
    | StoreOk => updateWhereId u orderId tbl
    | StoreError _ => tbl
    end.
Proof. by destruct reply. Qed.

End Updates.

(** ** Stage positions *)

Lemma getStatusIndex_status_name (s : OrderStatus) :
  getStatusIndex (status_name s)
  = match s with
    | pending => 0
    | received => 1
    | preparing => 2
    | configuring => 3
    | out_for_delivery => 4
    | delivered => 5
    end.
Proof. by destruct s. Qed.

(** ** C1: stage updates are not checked against the current stage *)

(** C1, the claim as stated fails: with the order at [received], the
    update to [delivered], four positions ahead, is applied and does
    not fail; and with the order then at [delivered], the update back
    to [received] is applied too, so the stage index falls from 5 to 1
    across two calls. *)
Lemma updateOrderStatus_skips_and_regresses :
  let o := Samples.freeOrder in
  let tbl1 := Lifecycle.perform 1000 (Lifecycle.UpdateOrderStatus StoreOk "o1" delivered) [o] in
  let tbl2 := Lifecycle.perform 2000 (Lifecycle.UpdateOrderStatus StoreOk "o1" received) tbl1 in
  (getStatusIndex (status_name delivered)
     > getStatusIndex (status_name (order_status o)) + 1
   ∧ ¬ fails (updateOrderStatus StoreOk 1000 (id o) delivered [o])
   ∧ order_status <$> tbl1 = [delivered])
  ∧ (getStatusIndex (status_name received) < getStatusIndex (status_name delivered)
     ∧ ¬ fails (updateOrderStatus StoreOk 2000 (id o) received tbl1)
     ∧ order_status <$> tbl2 = [received]).
Proof.
  cbv zeta. repeat split; try (vm_compute; congruence); try (intros []).
Qed.

(** The buttons of the operator screen: with no update in flight, the
    button of a stage is disabled exactly when the stage lies more than
    one position past the current one. *)
Lemma disabled_iff_skipping (selectedOrder : StarterPackOrder) (status : OrderStatus) :
  StarterPackOrdersAdmin.disabled false selectedOrder (status_name status)
  = bool_decide (getStatusIndex (status_name (order_status selectedOrder)) + 1
                 < getStatusIndex (status_name status)).
Proof.
  unfold StarterPackOrdersAdmin.disabled, StarterPackOrdersAdmin.canUpdate,
    StarterPackOrdersAdmin.isNext, StarterPackOrdersAdmin.isCurrent,
    StarterPackOrdersAdmin.isCompleted.
  cbv zeta. rewrite !getStatusIndex_status_name.
  destruct (order_status selectedOrder), status; reflexivity.
Qed.

(** C1 (amended): [updateOrderStatus] compares the target with nothing.
    It fails exactly when the store reports an error; when the store
    applies the update, every row of the given id is at the target
    stage afterwards, whatever its stage was.  The only check is on the
    operator screen: the button of a stage more than one position past
    the current one does nothing, and, with no update in flight, the
    button of the current or the next stage runs the update. *)
Theorem updateOrderStatus_unchecked (reply : StoreReply) (now : Z) (orderId : string)
    (status : OrderStatus) (tbl : Table) (updating : bool)
    (selectedOrder : StarterPackOrder) :
  let currentIndex := getStatusIndex (status_name (order_status selectedOrder)) in
  let statusIndex := getStatusIndex (status_name status) in
  (fails (updateOrderStatus reply now orderId status tbl) ↔ ∃ e, reply = StoreError e)
  ∧ (∀ (i : nat) o, tbl !! i = Some o → id o = orderId →
       order_status
         <$> Lifecycle.after (updateOrderStatus StoreOk now orderId status tbl) tbl !! i
       = Some status)
  ∧ (currentIndex + 1 < statusIndex →
     StarterPackOrdersAdmin.clickStatus reply now updating selectedOrder status tbl = None)
  ∧ (status ≠ pending → currentIndex ≤ statusIndex ≤ currentIndex + 1 →
     StarterPackOrdersAdmin.clickStatus reply now false selectedOrder status tbl
     = Some (updateOrderStatus reply now (id selectedOrder) status tbl)).
Proof.
  cbv zeta. split; [apply settleUpdate_fails |]. split; [| split].
  - intros i o Hi Hid. unfold updateOrderStatus.
    rewrite after_settleUpdate, (updateWhereId_hit _ _ _ _ _ Hi Hid). simpl.
    unfold statusUpdateData. by case_decide.
  - intros Hskip. unfold StarterPackOrdersAdmin.clickStatus.
    destruct updating.
    + by rewrite andb_false_r.
    + rewrite disabled_iff_skipping, (bool_decide_eq_true_2 (_ < _)) by done.
      by rewrite andb_false_r.
  - intros Hp Hnear. unfold StarterPackOrdersAdmin.clickStatus.
    rewrite disabled_iff_skipping, (bool_decide_eq_false_2 (_ < _)) by lia.
    rewrite bool_decide_eq_true_2; [done |].
    unfold StarterPackOrdersAdmin.statuses.
    destruct status; [done | repeat constructor ..].
Qed.

(** ** What one call does to the rows *)

(** A row that was in the table before a call is at the same position
    after it, either as it was or with one of the update objects of the
    service applied. *)
Lemma perform_old_row (now : Z) (c : Lifecycle.Call) (tbl : Table) (i : nat)
    (o : StarterPackOrder) :
  tbl !! i = Some o →
  ∃ o', Lifecycle.perform now c tbl !! i = Some o'
        ∧ (o' = o ∨ ∃ u, Lifecycle.builds now u ∧ o' = applyUpdate u o).
Proof.
  intros Hi.
  assert (Hupd : ∀ reply u orderId, Lifecycle.builds now u →
    ∃ o', Lifecycle.after (settleUpdate reply u orderId tbl) tbl !! i = Some o'
          ∧ (o' = o ∨ ∃ u, Lifecycle.builds now u ∧ o' = applyUpdate u o)).
  { intros reply u orderId Hu. rewrite after_settleUpdate.
    destruct reply; [| eauto].
    rewrite updateWhereId_lookup, Hi. simpl. case_decide; eauto 6. }
  destruct c as [reply userId includesTablet deliveryAddress restaurantId
                | reply orderId paymentIntentId status
                | reply orderId status
                | reply orderId proofUrl]; simpl.
  - destruct reply; simpl; [| eauto].
    exists o. split; [| by left]. by apply lookup_app_l_Some.
  - apply Hupd. constructor.
  - apply Hupd. constructor.
  - apply Hupd. constructor.
Qed.

(** Every row of the table after a call is an old row, an old row with
    an update object of the service applied, or the row stored by
    [createOrder]. *)
Lemma perform_rows (now : Z) (c : Lifecycle.Call) (tbl : Table) (o' : StarterPackOrder) :
  o' ∈ Lifecycle.perform now c tbl →
  (∃ o, o ∈ tbl ∧ (o' = o ∨ ∃ u, Lifecycle.builds now u ∧ o' = applyUpdate u o))
  ∨ (∃ filled userId includesTablet deliveryAddress restaurantId,
       o' = insertedOrder filled now userId includesTablet deliveryAddress restaurantId).
Proof.
  assert (Hupd : ∀ reply u orderId, Lifecycle.builds now u →
    o' ∈ Lifecycle.after (settleUpdate reply u orderId tbl) tbl →
    ∃ o, o ∈ tbl ∧ (o' = o ∨ ∃ u, Lifecycle.builds now u ∧ o' = applyUpdate u o)).
  { intros reply u orderId Hu. rewrite after_settleUpdate.
    destruct reply; [| eauto].
    unfold updateWhereId. intros (o & -> & Ho)%list_elem_of_fmap.
    exists o. split; [done |]. case_decide; eauto. }
  destruct c as [reply userId includesTablet deliveryAddress restaurantId
                | reply orderId paymentIntentId status
                | reply orderId status
                | reply orderId proofUrl]; simpl.
  - destruct reply as [filled | e]; simpl; [| eauto].
    intros [Ho | ->%list_elem_of_singleton]%elem_of_app; [eauto | right; eauto 10].
  - intros Ho. left. eapply Hupd; [| exact Ho]. constructor.
  - intros Ho. left. eapply Hupd; [| exact Ho]. constructor.
  - intros Ho. left. eapply Hupd; [| exact Ho]. constructor.
Qed.

(** A row keeps its position, its id and its audit trail through any
    history of calls. *)
Lemma performAll_old_row (history : list (Z * Lifecycle.Call)) :
  ∀ (tbl : Table) (i : nat) (o : StarterPackOrder),
    tbl !! i = Some o →
    ∃ o', Lifecycle.performAll history tbl !! i = Some o'
          ∧ id o' = id o ∧ status_timestamps o' = status_timestamps o.
Proof.
  induction history as [| [now c] rest IH]; intros tbl i o Hi; simpl.
  - eauto.
  - destruct (perform_old_row now c tbl i o Hi) as (o1 & Hi1 & Ho1).
    destruct (IH _ _ _ Hi1) as (o' & Hi' & Hid & Hts).
    exists o'. split; [done |].
    destruct Ho1 as [-> | (u & _ & ->)]; [done |].
    by rewrite Hid, Hts.
Qed.

(** ** C2: the audit trail *)

(** C2, on the code: the free order is at [received] and its audit
    trail has no entry for [preparing]; the update to [preparing] one
    hour later, a genuine transition to the next stage, is applied and
    leaves the audit trail as it was: the new stage gets no entry. *)
Lemma updateOrderStatus_records_no_entry :
  let o := Samples.freeOrder in
  let now := Samples.newYear2024 + Samples.hour in
  let tbl' := Lifecycle.after (updateOrderStatus StoreOk now (id o) preparing [o]) [o] in
  order_status o = received
  ∧ (status_timestamps o ≫= lookup "preparing") = None
  ∧ order_status <$> tbl' = [preparing]
  ∧ (λ o', status_timestamps o' ≫= lookup "preparing") <$> tbl' = [None]
  ∧ status_timestamps <$> tbl' = [Some {[ "received" := Samples.newYear2024 ]}].
Proof. cbv zeta. repeat split; by vm_compute. Qed.

(** The part of C2 the code keeps: the row [createOrder] stores has
    the entry [received], holding the instant of the call, and an entry
    of the audit trail of a row stays, with its instant, through every
    later history of calls of the service. *)
Lemma status_timestamps_entries_kept (history : list (Z * Lifecycle.Call)) (tbl : Table)
    (i : nat) (o : StarterPackOrder) (stage : string) (instant : Z) :
  tbl !! i = Some o →
  status_timestamps o ≫= lookup stage = Some instant →
  ∃ o', Lifecycle.performAll history tbl !! i = Some o'
        ∧ id o' = id o
        ∧ status_timestamps o' ≫= lookup stage = Some instant.
Proof.
  intros Hi Hentry.
  destruct (performAll_old_row history tbl i o Hi) as (o' & Hi' & Hid & Hts).
  exists o'. by rewrite Hts.
Qed.

Lemma createOrder_received_entry (filled : StoreFilled) (now : Z) (userId : string)
    (includesTablet : bool) (deliveryAddress : DeliveryAddress)
    (restaurantId : option string) :
  status_timestamps
    (insertedOrder filled now userId includesTablet deliveryAddress restaurantId)
  ≫= lookup "received"
  = Some now.
Proof. simpl. apply lookup_singleton_eq. Qed.

(** ** C3: [delivered_at] and the stage [delivered] *)







(** ** C4: settlements are recorded without a check *)

(** C4, the claim as stated fails: the free order is created with its
    payment [completed], a terminal state; recording the outcome
    [failed] with the reference pi_123 does not fail, and overwrites
    the payment state and the reference. *)
Lemma updateOrderPaymentStatus_resettles :
  let paid := Samples.freeOrder in
  let r := updateOrderPaymentStatus StoreOk (id paid) "pi_123" settled_failed [paid] in
  payment_status paid = payment_completed
  ∧ ¬ fails r
  ∧ payment_status <$> Lifecycle.after r [paid] = [payment_failed]
  ∧ stripe_payment_intent_id <$> Lifecycle.after r [paid] = [Some "pi_123"].
Proof.
  cbv zeta. repeat split; by vm_compute.
Qed.

(** C4 (amended): [updateOrderPaymentStatus] does not look at the
    payment state of the order.  It fails exactly when the store
    reports an error; when the store applies the update, every row of
    the given id has the given outcome as payment state and the given
    reference as settlement reference, also when its payment state was
    terminal already; with the outcome [completed] its stage is
    [received] afterwards, so that a [pending] order has advanced to
    [received], and with the outcome [failed] its stage is unchanged. *)
Theorem updateOrderPaymentStatus_unchecked (reply : StoreReply)
    (orderId paymentIntentId : string) (status : SettlementStatus) (tbl : Table) :
  (fails (updateOrderPaymentStatus reply orderId paymentIntentId status tbl)
   ↔ ∃ e, reply = StoreError e)
  ∧ ∀ (i : nat) o, tbl !! i = Some o → id o = orderId →
      ∃ o',
        Lifecycle.after
          (updateOrderPaymentStatus StoreOk orderId paymentIntentId status tbl) tbl !! i
        = Some o'
        ∧ payment_status o' = paymentOf status
        ∧ stripe_payment_intent_id o' = Some paymentIntentId
        ∧ order_status o'
          = match status with
            | settled_completed => received
            | settled_failed => order_status o
            end.
Proof.
  split; [apply settleUpdate_fails |].
  intros i o Hi Hid. unfold updateOrderPaymentStatus.
  rewrite after_settleUpdate, (updateWhereId_hit _ _ _ _ _ Hi Hid).
  eexists. split; [reflexivity |]. by destruct status.
Qed.

(** The scenario of the settlement pi_123 on an unpaid order at
    [pending]: the payment is [completed] and the order is at
    [received] afterwards. *)
Example updateOrderPaymentStatus_pi_123 :
  let unpaid := Samples.unpaidOrder in
  let tbl' :=
    Lifecycle.after
      (updateOrderPaymentStatus StoreOk (id unpaid) "pi_123" settled_completed [unpaid])
      [unpaid] in
  order_status unpaid = pending
  ∧ payment_status <$> tbl' = [payment_completed]
  ∧ stripe_payment_intent_id <$> tbl' = [Some "pi_123"]
  ∧ order_status <$> tbl' = [received].
Proof. cbv zeta. repeat split. Qed.

(** ** C5: a proof of delivery is stored at any stage *)

(** C5, the claim as stated fails: with the free order moved to
    [out_for_delivery], [updateProofOfDelivery] does not fail and the
    proof reference is set. *)
Lemma updateProofOfDelivery_before_delivery :
  let o := Samples.atStage (Samples.newYear2024 + 8 * Samples.hour) out_for_delivery
             Samples.freeOrder in
  let r := updateProofOfDelivery StoreOk (id o) "https://cdn.example/proof.jpg" [o] in
  order_status o = out_for_delivery
  ∧ proof_of_delivery_url o = None
  ∧ ¬ fails r
  ∧ proof_of_delivery_url <$> Lifecycle.after r [o] = [Some "https://cdn.example/proof.jpg"]
  ∧ order_status <$> Lifecycle.after r [o] = [out_for_delivery].
Proof.
  cbv zeta. repeat split; by vm_compute.
Qed.

(** C5 (amended): [updateProofOfDelivery] does not look at the stage of
    the order.  It fails exactly when the store reports an error; when
    the store applies the update, every row of the given id holds the
    given proof reference afterwards and is at the stage it was at,
    whatever that stage is.  The stage is looked at on the operator
    screen only, which renders the proof-of-delivery block exactly for
    a selected order at [delivered]. *)
Theorem updateProofOfDelivery_unchecked (reply : StoreReply) (orderId proofUrl : string)
    (tbl : Table) (selectedOrder : StarterPackOrder) :
  (fails (updateProofOfDelivery reply orderId proofUrl tbl) ↔ ∃ e, reply = StoreError e)
  ∧ (∀ (i : nat) o, tbl !! i = Some o → id o = orderId →
       ∃ o',
         Lifecycle.after (updateProofOfDelivery StoreOk orderId proofUrl tbl) tbl !! i
         = Some o'
         ∧ proof_of_delivery_url o' = Some proofUrl
         ∧ order_status o' = order_status o)
  ∧ (StarterPackOrdersAdmin.proofOfDeliveryShown selectedOrder = true
     ↔ order_status selectedOrder = delivered).
Proof.
  split; [apply settleUpdate_fails |]. split.
  - intros i o Hi Hid. unfold updateProofOfDelivery.
    rewrite after_settleUpdate, (updateWhereId_hit _ _ _ _ _ Hi Hid).
    by eexists.
  - unfold StarterPackOrdersAdmin.proofOfDeliveryShown. apply bool_decide_eq_true.
Qed.

(** ** Estimated delivery *)

Lemma timeClip_Some (tv : Z) : Z.abs tv ≤ JsDate.maxTime → JsDate.timeClip tv = Some tv.
Proof. intros H. unfold JsDate.timeClip. by rewrite bool_decide_eq_true_2. Qed.

Lemma timeClip_None (tv : Z) : JsDate.maxTime < Z.abs tv → JsDate.timeClip tv = None.
Proof. intros H. unfold JsDate.timeClip. rewrite bool_decide_eq_false_2; [done | lia]. Qed.

(** On a valid Date the estimate is the clipped sum. *)
Lemma calculateEstimatedDelivery_valid (tv : Z) :
  calculateEstimatedDelivery (Some tv) = JsDate.timeClip (tv + 9 * Samples.hour).
Proof. reflexivity. Qed.

Lemma calculateEstimatedDelivery_invalid : calculateEstimatedDelivery None = None.
Proof. reflexivity. Qed.

(** ** C6: the initial state of an order *)

(** C6, the claim as stated fails: an order created with the tablet,
    whose cost of 499 is still to be paid, is stored at [received] with
    its payment [completed], not at [pending] with its payment
    [pending]; and the row of the order without the tablet has no
    stored estimated delivery when the store fills none in. *)
Lemma createOrder_with_tablet_is_paid :
  let t0 := Samples.newYear2024 in
  let withTablet :=
    createOrder (InsertOk (Samples.filled "o2" t0)) t0 "u1" true Samples.address None [] in
  let without :=
    createOrder (InsertOk (Samples.filled "o1" t0)) t0 "u1" false Samples.address None [] in
  (withTablet = Resolved (Samples.tabletOrder, [Samples.tabletOrder])
   ∧ total_cost Samples.tabletOrder = 499
   ∧ order_status Samples.tabletOrder = received
   ∧ payment_status Samples.tabletOrder = payment_completed)
  ∧ (without = Resolved (Samples.freeOrder, [Samples.freeOrder])
     ∧ estimated_delivery Samples.freeOrder = None).
Proof. cbv zeta. repeat split. Qed.

(** C6 (amended): an order created without the tablet is stored with
    total cost 0, at [received] and with its payment [completed]; with
    the tablet the total cost is 499.  [createOrder] does not write the
    estimated delivery: the row has the one the store filled in, and
    when there is none the tracker shows the creation instant plus 9
    hours, as long as that is a time value of a Date. *)
Theorem createOrder_initial_state (filled : StoreFilled) (now : Z) (userId : string)
    (includesTablet : bool) (deliveryAddress : DeliveryAddress)
    (restaurantId : option string) (tbl : Table) :
  ∃ data,
    createOrder (InsertOk filled) now userId includesTablet deliveryAddress restaurantId tbl
    = Resolved (data, tbl ++ [data])
    ∧ total_cost data = (if includesTablet then 499 else 0)
    ∧ (includesTablet = false →
       order_status data = received ∧ payment_status data = payment_completed)
    ∧ estimated_delivery data = filled_estimated_delivery filled
    ∧ created_at data = filled_created_at filled
    ∧ (filled_estimated_delivery filled = None →
       Z.abs (created_at data) ≤ JsDate.maxTime →
       created_at data + 9 * Samples.hour ≤ JsDate.maxTime →
       OrderTracking.estimatedDelivery data = Some (created_at data + 9 * Samples.hour)).
Proof.
  eexists. split; [reflexivity |].
  split; [by destruct includesTablet |].
  split; [done |]. split; [reflexivity |]. split; [reflexivity |].
  simpl. intros Hnone Hlo Hhi. unfold OrderTracking.estimatedDelivery. simpl.
  rewrite Hnone. unfold JsDate.parse. rewrite timeClip_Some by done.
  rewrite calculateEstimatedDelivery_valid. apply timeClip_Some.
  unfold Samples.hour, JsDate.maxTime in *. lia.
Qed.

(** The scenario of the order created on 2024-01-01 at 00:00 UTC
    without the tablet: cost 0, [received], [completed], and an
    estimate of 09:00 UTC on the tracker. *)
Example createOrder_new_year_2024 :
  total_cost Samples.freeOrder = 0
  ∧ order_status Samples.freeOrder = received
  ∧ payment_status Samples.freeOrder = payment_completed
  ∧ OrderTracking.estimatedDelivery Samples.freeOrder = Some Samples.nineOClock2024.
Proof. repeat split. Qed.

(** ** C9: the estimate is nine hours after creation, within the range
    of a Date *)

(** C9, the claim as stated fails at the last instant a Date can hold
    (+275760-09-13T00:00:00.000Z): it is a valid creation instant, and
    the estimate computed from it is an Invalid Date, not the instant
    nine hours later. *)
Lemma calculateEstimatedDelivery_past_range :
  JsDate.parse JsDate.maxTime = Some JsDate.maxTime
  ∧ calculateEstimatedDelivery (JsDate.parse JsDate.maxTime) = None
  ∧ calculateEstimatedDelivery (JsDate.parse JsDate.maxTime)
    ≠ Some (JsDate.maxTime + 9 * Samples.hour).
Proof. repeat split. discriminate. Qed.

(** C9 (amended): for a creation instant that is a time value of a
    Date, [calculateEstimatedDelivery] is that instant plus 9 hours
    (32,400,000 ms), exactly, whenever the sum is still a time value of
    a Date; past that, and for an Invalid Date, it is an Invalid
    Date. *)
Theorem calculateEstimatedDelivery_exact (createdAt : Z) :
  calculateEstimatedDelivery (JsDate.parse createdAt)
  = if bool_decide (Z.abs createdAt ≤ JsDate.maxTime
                    ∧ createdAt + 32400000 ≤ JsDate.maxTime)
    then Some (createdAt + 32400000)
    else None.
Proof.
  unfold JsDate.parse.
  destruct (decide (Z.abs createdAt ≤ JsDate.maxTime)) as [Hin | Hout].
  - rewrite (timeClip_Some _ Hin), calculateEstimatedDelivery_valid.
    change (9 * Samples.hour) with 32400000.
    case_bool_decide as Hsum.
    + apply timeClip_Some. unfold JsDate.maxTime in *. lia.
    + apply timeClip_None. unfold JsDate.maxTime in *. lia.
  - rewrite timeClip_None by lia. rewrite calculateEstimatedDelivery_invalid.
    rewrite bool_decide_eq_false_2; [done | tauto].
Qed.

(** ** C7: when an order counts as delayed *)

(** C7, the claim as stated fails: [isDelayed] is not determined by
    its arguments.  With the same order date, the same status
    [preparing] and the same estimate of 09:00, the call made when the
    clock shows 08:00 answers false and the call made when it shows
    10:00 answers true: the instant compared with the estimate is not
    an argument, the function reads it with [new Date()]. *)
Lemma isDelayed_depends_on_clock :
  let orderDate := Some Samples.newYear2024 in
  let currentStatus := status_name preparing in
  let estimatedDelivery := Some Samples.nineOClock2024 in
  isDelayed (Samples.nineOClock2024 - Samples.hour) orderDate currentStatus estimatedDelivery
  = false
  ∧ isDelayed (Samples.nineOClock2024 + Samples.hour) orderDate currentStatus
      estimatedDelivery
    = true
  ∧ isDelayed (Samples.nineOClock2024 - Samples.hour) orderDate currentStatus
      estimatedDelivery
    ≠ isDelayed (Samples.nineOClock2024 + Samples.hour) orderDate currentStatus
        estimatedDelivery.
Proof. cbv zeta. split; [| split]; by vm_compute. Qed.

(** C7 (amended): [isDelayed] is false for the stages
    [out_for_delivery] and [delivered] whatever the clock shows and for
    every estimate; for every other value of the status it is the
    comparison [now > eta], which is true exactly when the estimate is
    a valid instant before [now], where [now] is what the clock shows
    when the function reads it; so the result is determined by the
    status, the estimate and that reading of the clock, and the order
    date is not looked at. *)
Theorem isDelayed_spec (now : Z) (orderDate orderDate' : JsDate.t)
    (currentStatus : string) (estimatedDelivery : JsDate.t) :
  isDelayed now orderDate (status_name out_for_delivery) estimatedDelivery = false
  ∧ isDelayed now orderDate (status_name delivered) estimatedDelivery = false
  ∧ (currentStatus ≠ "out_for_delivery" → currentStatus ≠ "delivered" →
     isDelayed now orderDate currentStatus estimatedDelivery
     = JsDate.gt (Some now) estimatedDelivery
     ∧ (isDelayed now orderDate currentStatus estimatedDelivery = true
        ↔ ∃ eta, estimatedDelivery = Some eta ∧ eta < now))
  ∧ isDelayed now orderDate' currentStatus estimatedDelivery
    = isDelayed now orderDate currentStatus estimatedDelivery.
Proof.
  split; [reflexivity |]. split; [reflexivity |]. split; [| reflexivity].
  intros Hofd Hdel. unfold isDelayed.
  rewrite bool_decide_eq_false_2 by tauto. split; [reflexivity |].
  destruct estimatedDelivery as [eta |]; simpl.
  - rewrite bool_decide_eq_true. split.
    + intros Hlt. by exists eta.
    + intros (eta' & [= ->] & Hlt). exact Hlt.
  - split; [discriminate | intros (eta & Heq & _); discriminate].
Qed.

(** The scenario of the order at [preparing] looked at two hours after
    its estimate: it is delayed. *)
Example isDelayed_preparing_two_hours_late :
  isDelayed (Samples.nineOClock2024 + 2 * Samples.hour) (Some Samples.newYear2024)
            (status_name preparing) (Some Samples.nineOClock2024)
  = true.
Proof. reflexivity. Qed.

(** ** C8: the wording of the delay message *)

(** The whole hours in a lateness of [late] milliseconds. *)
Lemma whole_hours (late k : Z) :
  k * Samples.hour ≤ late < (k + 1) * Samples.hour → late `div` Samples.hour = k.
Proof.
  unfold Samples.hour. intros Hk. symmetry.
  apply Z.div_unique with (r := late - k * (1000 * 60 * 60)); lia.
Qed.

Lemma delayHoursAt_valid (now eta : Z) :
  delayHoursAt now (Some eta) = Some ((now - eta) `div` (1000 * 60 * 60)).
Proof. reflexivity. Qed.

(** The tiers of [getDelayMessage] in terms of the lateness in
    milliseconds. *)
Lemma getDelayMessage_by_lateness (now eta : Z) :
  getDelayMessage now (Some eta)
  = if bool_decide (now - eta < Samples.hour) then slightlyDelayed
    else if bool_decide (now - eta < 3 * Samples.hour)
         then delayedBy (Some ((now - eta) `div` (1000 * 60 * 60)))
         else contactSupport.
Proof.
  unfold getDelayMessage. rewrite delayHoursAt_valid. simpl.
  assert (Hdiv : ∀ k, (now - eta) `div` (1000 * 60 * 60) < k ↔ now - eta < k * Samples.hour).
  { intros k. unfold Samples.hour.
    split; intros Hk.
    - apply Z.nle_gt. intros Hge.
      assert (k ≤ (now - eta) `div` (1000 * 60 * 60))
        by (apply Z.div_le_lower_bound; lia).
      lia.
    - apply Z.div_lt_upper_bound; lia. }
  rewrite (bool_decide_ext _ _ (Hdiv 1)), (bool_decide_ext _ _ (Hdiv 3)).
  by rewrite Z.mul_1_l.
Qed.

(** C8: [getDelayMessage] has three tiers by the time elapsed since a
    valid estimate.  Under one hour: the mild apology "Your order is
    slightly delayed. We apologize for the inconvenience.", which holds
    no digit.  From one hour and under three: the apology with the
    whole hours elapsed, rounded down, worded "1 hour" or "2 hours";
    two hours past the estimate it reads "delayed by approximately 2
    hours".  From three hours on: the message that apologizes and asks
    to contact support, which holds no digit. *)
Theorem getDelayMessage_tiers (now eta : Z) :
  let late := now - eta in
  (late < Samples.hour →
   getDelayMessage now (Some eta)
   = "Your order is slightly delayed. We apologize for the inconvenience.")
  ∧ (Samples.hour ≤ late < 3 * Samples.hour →
     getDelayMessage now (Some eta)
     = "Your order is delayed by approximately " +:+ pretty (late `div` Samples.hour)
       +:+ (if bool_decide (late `div` Samples.hour = 1) then " hour" else " hours")
       +:+ ". Our team is working to get it to you as soon as possible."
     ∧ 1 ≤ late `div` Samples.hour ≤ 2)
  ∧ (3 * Samples.hour ≤ late →
     getDelayMessage now (Some eta)
     = "We sincerely apologize for the delay. Your order is taking longer than expected. Please contact support for more information.")
  ∧ getDelayMessage (eta + 2 * Samples.hour) (Some eta)
    = "Your order is delayed by approximately 2 hours. Our team is working to get it to you as soon as possible."
  ∧ (Text.hasDigit slightlyDelayed = false
     ∧ Text.contains "We apologize" slightlyDelayed = true)
  ∧ (Text.hasDigit contactSupport = false
     ∧ Text.contains "contact support" contactSupport = true)
  ∧ Text.contains "delayed by approximately 2 hours"
      (getDelayMessage (eta + 2 * Samples.hour) (Some eta))
    = true.
Proof.
  cbv zeta.
  assert (Htwo : getDelayMessage (eta + 2 * Samples.hour) (Some eta)
    = "Your order is delayed by approximately 2 hours. Our team is working to get it to you as soon as possible.").
  { rewrite getDelayMessage_by_lateness.
    replace (eta + 2 * Samples.hour - eta) with (2 * Samples.hour) by lia.
    reflexivity. }
  rewrite Htwo. rewrite getDelayMessage_by_lateness.
  split; [| split; [| split; [| split; [| split; [| split]]]]].
  - intros Hlt. by rewrite bool_decide_eq_true_2.
  - intros [Hlo Hhi].
    rewrite bool_decide_eq_false_2, bool_decide_eq_true_2 by lia.
    change (1000 * 60 * 60) with Samples.hour.
    destruct (decide (now - eta < 2 * Samples.hour)) as [Hone | Hnot].
    + rewrite (whole_hours (now - eta) 1) by lia. split; [reflexivity | lia].
    + rewrite (whole_hours (now - eta) 2) by lia. split; [reflexivity | lia].
  - intros Hge. by rewrite !bool_decide_eq_false_2 by (unfold Samples.hour in *; lia).
  - reflexivity.
  - by vm_compute.
  - by vm_compute.
  - by vm_compute.
Qed.

(** ** C10: what a stage update leaves alone *)

(** The columns the update object of [updateOrderStatus] names. *)
Lemma statusUpdateData_columns (now : Z) (status : OrderStatus) :
  set_order_status (statusUpdateData now status) = Some status
  ∧ set_payment_status (statusUpdateData now status) = None
  ∧ set_stripe_payment_intent_id (statusUpdateData now status) = None
  ∧ set_proof_of_delivery_url (statusUpdateData now status) = None
  ∧ set_delivered_at (statusUpdateData now status)
    = if decide (status = delivered) then Some now else None.
Proof. unfold statusUpdateData. by case_decide. Qed.

(** C10: after [updateOrderStatus], whatever the store replied, every
    row of the table is at its position with its payment state,
    settlement reference, audit trail, proof reference, estimated
    delivery, costs and delivery address as before; its stage differs
    only if it is a row of the given id, and is then the target; its
    [delivered_at] differs only if the target is [delivered], and is
    then the instant of the call: an update to another stage does not
    clear it. *)
Theorem updateOrderStatus_frame (reply : StoreReply) (now : Z) (orderId : string)
    (status : OrderStatus) (tbl : Table) :
  Forall2
    (λ o o',
       (id o' = id o
        ∧ payment_status o' = payment_status o
        ∧ stripe_payment_intent_id o' = stripe_payment_intent_id o
        ∧ status_timestamps o' = status_timestamps o
        ∧ proof_of_delivery_url o' = proof_of_delivery_url o
        ∧ estimated_delivery o' = estimated_delivery o)
       ∧ (total_cost o' = total_cost o
          ∧ tablet_cost o' = tablet_cost o
          ∧ includes_tablet o' = includes_tablet o)
       ∧ (delivery_address_line1 o' = delivery_address_line1 o
          ∧ delivery_address_line2 o' = delivery_address_line2 o
          ∧ delivery_city o' = delivery_city o
          ∧ delivery_emirate o' = delivery_emirate o
          ∧ delivery_contact_number o' = delivery_contact_number o)
       ∧ (order_status o' = order_status o
          ∨ id o = orderId ∧ reply = StoreOk ∧ order_status o' = status)
       ∧ (delivered_at o' = delivered_at o
          ∨ status = delivered ∧ id o = orderId ∧ delivered_at o' = Some now)
       ∧ (status ≠ delivered → delivered_at o' = delivered_at o))
    tbl
    (Lifecycle.after (updateOrderStatus reply now orderId status tbl) tbl).
Proof.
  unfold updateOrderStatus. rewrite after_settleUpdate.
  destruct reply as [| e].
  - unfold updateWhereId. apply Forall2_fmap_r, Forall_Forall2_diag, Forall_forall.
    intros o _. unfold compose. cbv beta. case_decide as Hid; [| tauto].
    destruct (statusUpdateData_columns now status) as (Hs & Hp & Hi & Hu & Hd).
    unfold applyUpdate. simpl. rewrite Hs, Hp, Hi, Hu, Hd. simpl.
    case_decide as Hdel; repeat split; auto; intros; congruence.
  - apply Forall_Forall2_diag, Forall_forall. intros o _. tauto.
Qed.

(** * Further properties of the service and of its callers *)

Import StarterPackReads.

(** ** Positions of the stages *)

(** [indexOfFrom] finds the first position of [x], counted from [i], or
    answers -1. *)
Lemma indexOfFrom_spec (x : string) (l : list string) :
  ∀ i : Z, 0 ≤ i →
    ((x ∉ l) ∧ indexOfFrom x l i = -1)
    ∨ (∃ n : nat, indexOfFrom x l i = i + Z.of_nat n
                  ∧ l !! n = Some x
                  ∧ ∀ m : nat, (m < n)%nat → l !! m ≠ Some x).
Proof.
  induction l as [| y l IH]; intros i Hi; simpl.
  - left. split; [apply not_elem_of_nil | done].
  - case_decide as Hy.
    + right. exists 0%nat. subst y. split; [lia |]. split; [done |]. intros m Hm. lia.
    + destruct (IH (i + 1)) as [[Hnot ->] | (n & -> & Hn & Hfirst)]; [lia | |].
      * left. split; [| done]. by intros [-> | ?]%elem_of_cons.
      * right. exists (S n). split; [lia |]. split; [done |].
        intros [| m] Hm; simpl; [congruence | apply Hfirst; lia].
Qed.

(** [getStatusIndex] answers -1 exactly for a string that is no stage
    name; for a stage name it answers its position, between 0 and 5, in
    the list of the six names, so that reading the list at that
    position gives the name back; and no other string has the position
    of a stage. *)
Theorem getStatusIndex_position (status : string) :
  (getStatusIndex status = -1 ↔ status ∉ statuses)
  ∧ (status ∈ statuses →
     0 ≤ getStatusIndex status ≤ 5
     ∧ statuses !! Z.to_nat (getStatusIndex status) = Some status)
  ∧ (∀ s : OrderStatus,
       getStatusIndex status = getStatusIndex (status_name s) → status = status_name s).
Proof.
  assert (Hcases :
    ((status ∉ statuses) ∧ getStatusIndex status = -1)
    ∨ (status ∈ statuses ∧ 0 ≤ getStatusIndex status ≤ 5
       ∧ statuses !! Z.to_nat (getStatusIndex status) = Some status)).
  { unfold getStatusIndex.
    destruct (indexOfFrom_spec status statuses 0) as [[Hnot Heq] | (n & Heq & Hn & _)];
      [lia | by left |].
    right. rewrite Heq, Z.add_0_l, Nat2Z.id.
    split; [by eapply list_elem_of_lookup_2 |]. split; [| done].
    apply lookup_lt_Some in Hn. simpl in Hn. lia. }
  split; [| split].
  - destruct Hcases as [[Hnot Heq] | (Hin & Hrange & _)]; split; try done; lia.
  - intros Hin. destruct Hcases as [[Hnot _] | (_ & Hrange & Hget)]; done.
  - intros s Heq. rewrite getStatusIndex_status_name in Heq.
    destruct Hcases as [[_ Hminus] | (_ & _ & Hget)].
    + destruct s; lia.
    + rewrite Heq in Hget. destruct s; vm_compute in Hget; cbn; congruence.
Qed.

(** ** The price *)

(** The total stored by [createOrder] is the price [calculateTotalCost]
    quotes for the same choice, it is the base cost plus the stored
    tablet cost, the stored tablet cost is [getTabletCost] with the
    tablet and 0 without, and the quoted price is 0 exactly without the
    tablet. *)
Theorem createOrder_stores_quoted_price (filled : StoreFilled) (now : Z) (userId : string)
    (includesTablet : bool) (deliveryAddress : DeliveryAddress)
    (restaurantId : option string) (tbl : Table) :
  ∃ data tbl',
    createOrder (InsertOk filled) now userId includesTablet deliveryAddress restaurantId tbl
    = Resolved (data, tbl')
    ∧ total_cost data = calculateTotalCost includesTablet
    ∧ total_cost data = STARTER_PACK_BASE_COST + tablet_cost data
    ∧ tablet_cost data = (if includes_tablet data then getTabletCost else 0)
    ∧ (calculateTotalCost includesTablet = 0 ↔ includesTablet = false).
Proof.
  eexists _, _. split; [reflexivity |]. simpl.
  split; [reflexivity |]. split; [reflexivity |]. split; [reflexivity |].
  unfold calculateTotalCost, STARTER_PACK_BASE_COST, TABLET_COST.
  destruct includesTablet; split; (done || lia).
Qed.

(** ** Listings *)

Lemma orderByCreatedAtDesc_perm (rows : list StarterPackOrder) :
  orderByCreatedAtDesc rows ≡ₚ rows.
Proof. apply merge_sort_Permutation. Qed.

Lemma orderByCreatedAtDesc_sorted (rows : list StarterPackOrder) :
  StronglySorted newerFirst (orderByCreatedAtDesc rows).
Proof. apply StronglySorted_merge_sort; apply _. Qed.

(** [getUserOrders] resolves exactly when the store reports no error.
    Its list holds the rows of the table that belong to the user and
    have a completed payment, each as often as the table holds it, and
    no other row; and every row of the list was created no earlier than
    the rows after it. *)
Theorem getUserOrders_lists_paid_orders (reply : StoreReply) (userId : string) (tbl : Table) :
  match getUserOrders reply userId tbl with
  | Resolved userOrders =>
      reply = StoreOk
      ∧ userOrders
        ≡ₚ filter (λ o, user_id o = userId ∧ payment_status o = payment_completed) tbl
      ∧ (∀ o, o ∈ userOrders
              ↔ o ∈ tbl ∧ user_id o = userId ∧ payment_status o = payment_completed)
      ∧ StronglySorted (λ o1 o2, created_at o2 ≤ created_at o1) userOrders
  | Thrown e => reply = StoreError e
  end.
Proof.
  destruct reply as [| e]; simpl; [| done].
  split; [done |]. split; [apply orderByCreatedAtDesc_perm |]. split.
  - intros o. rewrite orderByCreatedAtDesc_perm, list_elem_of_filter. tauto.
  - apply orderByCreatedAtDesc_sorted.
Qed.

(** [getAllOrders] resolves exactly when the store reports no error;
    its list is the table rearranged, no row lost or repeated, and
    every row of it was created no earlier than the rows after it. *)
Theorem getAllOrders_lists_every_order (reply : StoreReply) (tbl : Table) :
  match getAllOrders reply tbl with
  | Resolved allOrders =>
      reply = StoreOk
      ∧ allOrders ≡ₚ tbl
      ∧ length allOrders = length tbl
      ∧ StronglySorted (λ o1 o2, created_at o2 ≤ created_at o1) allOrders
  | Thrown e => reply = StoreError e
  end.
Proof.
  destruct reply as [| e]; simpl; [| done].
  split; [done |]. split; [apply orderByCreatedAtDesc_perm |]. split.
  - by rewrite orderByCreatedAtDesc_perm.
  - apply orderByCreatedAtDesc_sorted.
Qed.

(** ** Reading one order *)

(** A filter leaves exactly one element when exactly one position of
    the list holds an element that passes. *)
Lemma filter_eq_singleton {A : Type} (P : A → Prop) `{!∀ x, Decision (P x)}
    (l : list A) (o : A) :
  filter P l = [o]
  ↔ ∃ i : nat, l !! i = Some o ∧ P o ∧ ∀ (j : nat) r, l !! j = Some r → P r → j = i.
Proof.
  induction l as [| x l IH].
  - split; [done | by intros (i & Hi & _)].
  - rewrite filter_cons. destruct (decide (P x)) as [Hx | Hx].
    + split.
      * intros [= -> Hnil]. exists 0%nat. split; [done |]. split; [done |].
        intros [| j] r Hj Hr; [done |]. simpl in Hj. exfalso.
        eapply filter_nil_not_elem_of; [exact Hnil | exact Hr |].
        by eapply list_elem_of_lookup_2.
      * intros (i & Hi & Ho & Huniq).
        assert (i = 0%nat) as -> by (symmetry; by apply (Huniq 0%nat x)).
        simpl in Hi. injection Hi as ->. f_equal.
        destruct (filter P l) as [| a k] eqn:Hk; [done |]. exfalso.
        assert (Ha : a ∈ filter P l) by (rewrite Hk; apply list_elem_of_here).
        apply list_elem_of_filter in Ha as [Hpa [j Hj]%list_elem_of_lookup_1].
        by specialize (Huniq (S j) a Hj Hpa).
    + rewrite IH. split.
      * intros (i & Hi & Ho & Huniq). exists (S i). split; [done |]. split; [done |].
        intros [| j] r Hj Hr; simpl in Hj; [congruence |].
        f_equal. by eapply Huniq.
      * intros (i & Hi & Ho & Huniq). destruct i as [| i]; simpl in Hi; [congruence |].
        exists i. split; [done |]. split; [done |].
        intros j r Hj Hr. specialize (Huniq (S j) r Hj Hr). lia.
Qed.

(** [getOrderById] in terms of the rows of the given id. *)
Lemma getOrderById_rows (reply : StoreReply) (orderId : string) (tbl : Table)
    (o : StarterPackOrder) :
  getOrderById reply orderId tbl = Some o
  ↔ reply = StoreOk ∧ filter (λ r, id r = orderId) tbl = [o].
Proof.
  unfold getOrderById, Table in *. destruct reply as [| e].
  - destruct (filter _ tbl) as [| x [| y k]]; simpl.
    + split; [done | by intros [_ ?]].
    + split; [by intros [= ->] | by intros [_ [= ->]]].
    + split; [done | by intros [_ ?]].
  - split; [done | by intros [? _]].
Qed.

(** [getOrderById] answers a row exactly when the store reports no
    error and the row is the only one of the table with the given id:
    it answers null on an error of the store, when no row has the id,
    and when several rows have it. *)
Theorem getOrderById_only_row (reply : StoreReply) (orderId : string) (tbl : Table)
    (o : StarterPackOrder) :
  getOrderById reply orderId tbl = Some o
  ↔ reply = StoreOk
    ∧ ∃ i : nat, tbl !! i = Some o ∧ id o = orderId
                 ∧ ∀ (j : nat) r, tbl !! j = Some r → id r = orderId → j = i.
Proof.
  rewrite getOrderById_rows.
  by rewrite (filter_eq_singleton (λ r, id r = orderId)).
Qed.

(** The rows of an id after an update are those of before, updated
    when the update is on that id. *)
Lemma filter_id_updateWhereId (u : UpdateData) (orderId readId : string) (tbl : Table) :
  filter (λ r, id r = readId) (updateWhereId u orderId tbl)
  = (λ o, if decide (id o = orderId) then applyUpdate u o else o)
      <$> filter (λ r, id r = readId) tbl.
Proof.
  unfold updateWhereId, Table in *. induction tbl as [| x tbl IH]; [done |].
  rewrite fmap_cons, !filter_cons, IH.
  assert (Hid : id (if decide (id x = orderId) then applyUpdate u x else x) = id x)
    by (by case_decide).
  rewrite Hid. by destruct (decide (id x = readId)).
Qed.

(** Reading back after a write: where [getOrderById] reads an order,
    it reads, after each updating method applied to that id, the same
    order with the written columns changed; and it reads the order
    unchanged after a stage update applied to another id. *)
Theorem getOrderById_after_update (now : Z) (orderId otherId paymentIntentId proofUrl : string)
    (status : OrderStatus) (settlement : SettlementStatus) (tbl : Table)
    (o : StarterPackOrder) :
  getOrderById StoreOk orderId tbl = Some o →
  (∃ o',
     getOrderById StoreOk orderId
       (Lifecycle.after (updateOrderStatus StoreOk now orderId status tbl) tbl) = Some o'
     ∧ order_status o' = status ∧ payment_status o' = payment_status o)
  ∧ (∃ o',
       getOrderById StoreOk orderId
         (Lifecycle.after
            (updateOrderPaymentStatus StoreOk orderId paymentIntentId settlement tbl) tbl)
       = Some o'
       ∧ payment_status o' = paymentOf settlement
       ∧ stripe_payment_intent_id o' = Some paymentIntentId)
  ∧ (∃ o',
       getOrderById StoreOk orderId
         (Lifecycle.after (updateProofOfDelivery StoreOk orderId proofUrl tbl) tbl) = Some o'
       ∧ proof_of_delivery_url o' = Some proofUrl ∧ order_status o' = order_status o)
  ∧ (otherId ≠ orderId →
     getOrderById StoreOk orderId
       (Lifecycle.after (updateOrderStatus StoreOk now otherId status tbl) tbl) = Some o).
Proof.
  intros Hread.
  assert (Hrows : filter (λ r, id r = orderId) tbl = [o] ∧ id o = orderId).
  { apply getOrderById_rows in Hread as [_ Hrows]. split; [done |].
    apply (filter_eq_singleton (λ r, id r = orderId)) in Hrows.
    by destruct Hrows as (i & _ & Hid & _). }
  destruct Hrows as [Hrows Hid].
  assert (Hafter : ∀ u target,
    getOrderById StoreOk orderId (updateWhereId u target tbl)
    = Some (if decide (id o = target) then applyUpdate u o else o)).
  { intros u target. unfold getOrderById.
    by rewrite filter_id_updateWhereId, Hrows. }
  unfold updateOrderStatus, updateOrderPaymentStatus, updateProofOfDelivery.
  rewrite !after_settleUpdate, !Hafter, !decide_True by done.
  split; [| split; [| split]].
  - eexists. split; [reflexivity |]. simpl. unfold statusUpdateData. by case_decide.
  - eexists. split; [reflexivity |]. by destruct settlement.
  - by eexists.
  - intros Hother. rewrite decide_False; [done | congruence].
Qed.

(** The theorem applies to the table that holds the free order. *)
Lemma getOrderById_after_update_witness :
  ∃ o',
    getOrderById StoreOk "o1"
      (Lifecycle.after (updateOrderStatus StoreOk 5 "o1" preparing [Samples.freeOrder])
                       [Samples.freeOrder]) = Some o'
    ∧ order_status o' = preparing ∧ payment_status o' = payment_status Samples.freeOrder.
Proof.
  apply (getOrderById_after_update 5 "o1" "o2" "pi_123" "proof.jpg" preparing
           settled_completed [Samples.freeOrder] Samples.freeOrder).
  reflexivity.
Defined.

(** ** What the customer is shown after a payment is recorded *)

Lemma elem_of_orderByCreatedAtDesc_filter (P : StarterPackOrder → Prop)
    `{!∀ o, Decision (P o)} (tbl : Table) (o : StarterPackOrder) :
  o ∈ orderByCreatedAtDesc (filter P tbl) ↔ P o ∧ o ∈ tbl.
Proof. by rewrite orderByCreatedAtDesc_perm, list_elem_of_filter. Qed.

(** The order [createOrder] stores is in the list [getUserOrders] gives
    its user right afterwards.  After the outcome [failed] is recorded
    for an id, no order of that id is in the list of any user; after
    the outcome [completed] is recorded, an order of that id is in the
    list of its user, with the recorded settlement reference. *)
Theorem getUserOrders_follows_payment (filled : StoreFilled) (now : Z)
    (userId orderId paymentIntentId viewer : string) (includesTablet : bool)
    (deliveryAddress : DeliveryAddress) (restaurantId : option string) (tbl : Table) :
  (∀ data tbl',
     createOrder (InsertOk filled) now userId includesTablet deliveryAddress restaurantId tbl
     = Resolved (data, tbl') →
     ∃ userOrders, getUserOrders StoreOk userId tbl' = Resolved userOrders
                   ∧ data ∈ userOrders)
  ∧ (∀ userOrders o,
       getUserOrders StoreOk viewer
         (Lifecycle.after
            (updateOrderPaymentStatus StoreOk orderId paymentIntentId settled_failed tbl) tbl)
       = Resolved userOrders →
       o ∈ userOrders → id o ≠ orderId)
  ∧ (∀ o, o ∈ tbl → id o = orderId → user_id o = viewer →
       ∃ userOrders o',
         getUserOrders StoreOk viewer
           (Lifecycle.after
              (updateOrderPaymentStatus StoreOk orderId paymentIntentId settled_completed tbl)
              tbl)
         = Resolved userOrders
         ∧ o' ∈ userOrders ∧ id o' = orderId
         ∧ stripe_payment_intent_id o' = Some paymentIntentId).
Proof.
  split; [| split].
  - intros data tbl' [= <- <-]. eexists. split; [reflexivity |].
    apply elem_of_orderByCreatedAtDesc_filter. split; [done |].
    apply elem_of_app. right. apply list_elem_of_here.
  - unfold updateOrderPaymentStatus. rewrite after_settleUpdate.
    intros userOrders o [= <-] Ho Hid.
    apply elem_of_orderByCreatedAtDesc_filter in Ho as [[_ Hpaid] Hin].
    apply list_elem_of_fmap in Hin as (r & -> & _).
    case_decide as Hr; [discriminate Hpaid | simpl in Hid; congruence].
  - unfold updateOrderPaymentStatus. rewrite after_settleUpdate.
    intros o Hin Hid Huser.
    eexists _, (applyUpdate (paymentUpdateData paymentIntentId settled_completed) o).
    split; [reflexivity |]. split; [| done].
    apply elem_of_orderByCreatedAtDesc_filter. split; [done |].
    apply list_elem_of_fmap. exists o. by rewrite decide_True.
Qed.

(** ** The buttons of the operator screen *)

(** For the button of a stage on the operator screen: it is marked
    current exactly when the order is at that stage; it is disabled
    exactly when an update is in flight or the stage is more than one
    position past the current one, so that the buttons of the earlier
    stages stay enabled; and among the five buttons exactly the one of
    the stage after the current is marked next, none when the order is
    delivered. *)
Theorem status_buttons (updating : bool) (selectedOrder : StarterPackOrder)
    (status : OrderStatus) :
  let currentIndex := getStatusIndex (status_name (order_status selectedOrder)) in
  let statusIndex := getStatusIndex (status_name status) in
  (StarterPackOrdersAdmin.isCurrent selectedOrder (status_name status) = true
   ↔ status = order_status selectedOrder)
  ∧ StarterPackOrdersAdmin.disabled updating selectedOrder (status_name status)
    = updating || bool_decide (currentIndex + 1 < statusIndex)
  ∧ filter (λ s, StarterPackOrdersAdmin.isNext selectedOrder (status_name s) = true)
           StarterPackOrdersAdmin.statuses
    = match order_status selectedOrder with
      | pending => [received]
      | received => [preparing]
      | preparing => [configuring]
      | configuring => [out_for_delivery]
      | out_for_delivery => [delivered]
      | delivered => []
      end.
Proof.
  cbv zeta. split; [| split].
  - unfold StarterPackOrdersAdmin.isCurrent. rewrite bool_decide_eq_true.
    split; [| by intros ->].
    destruct status, (order_status selectedOrder); simpl; intros H; done || discriminate H.
  - destruct updating; [done |]. apply disabled_iff_skipping.
  - unfold StarterPackOrdersAdmin.isNext. cbv zeta.
    destruct (order_status selectedOrder); reflexivity.
Qed.

(** ** The stages of the tracker *)

Lemma tracker_stage_index (index : nat) (key : string) :
  OrderTrackingView.stages !! index = Some key →
  getStatusIndex key = Z.of_nat index + 1.
Proof.
  unfold OrderTrackingView.stages.
  do 5 (destruct index as [| index]; [by intros [= <-] |]). done.
Qed.

(** The tracker compares the position of a stage among its five stages
    with the position of the order's stage among the six stages of the
    service, which count [pending] first.  So the stage it marks "In
    Progress" is the one after the stage the order is at, and the
    stages it draws as reached are those up to that one. *)
Theorem tracker_marks_next_stage (order : StarterPackOrder) (index : nat) (key : string) :
  OrderTrackingView.stages !! index = Some key →
  (OrderTrackingView.isCurrent order index = true
   ↔ getStatusIndex key = getStatusIndex (status_name (order_status order)) + 1)
  ∧ (OrderTrackingView.isActive order index = true
     ↔ getStatusIndex key ≤ getStatusIndex (status_name (order_status order)) + 1).
Proof.
  intros Hkey. rewrite (tracker_stage_index _ _ Hkey).
  unfold OrderTrackingView.isCurrent, OrderTrackingView.isActive. cbv zeta.
  rewrite !bool_decide_eq_true. lia.
Qed.

(** For the free order, which is at [received], the stage at position 1
    of the tracker, [preparing], is the one marked. *)
Lemma tracker_marks_next_stage_witness :
  (OrderTrackingView.isCurrent Samples.freeOrder 1 = true
   ↔ getStatusIndex "preparing"
     = getStatusIndex (status_name (order_status Samples.freeOrder)) + 1)
  ∧ (OrderTrackingView.isActive Samples.freeOrder 1 = true
     ↔ getStatusIndex "preparing"
       ≤ getStatusIndex (status_name (order_status Samples.freeOrder)) + 1).
Proof.
  apply (tracker_marks_next_stage Samples.freeOrder 1 "preparing"). reflexivity.
Defined.

(** ** The handler of the status buttons *)

(** [handleStatusUpdate] on the selected order, where the selection is
    the row the table holds for its id.  The handler always ends with
    [updating] off.  When the store rejects the update, the table, the
    list and the selection are as before and one alert is raised.  When
    the store applies it, no alert is raised, the list is the new table
    rearranged if the listing succeeds, and the selection is the row
    read back, which is at the new stage, or is cleared when the
    reading fails. *)
Theorem handleStatusUpdate_outcome (updateReply listReply readReply : StoreReply) (now : Z)
    (newStatus : OrderStatus) (st : AdminHandlers.State) (tbl : Table)
    (sel : StarterPackOrder) :
  AdminHandlers.selectedOrder st = Some sel →
  getOrderById StoreOk (id sel) tbl = Some sel →
  let result :=
    AdminHandlers.handleStatusUpdate updateReply listReply readReply now (id sel)
      newStatus st tbl in
  AdminHandlers.updating result.1 = false
  ∧ match updateReply with
    | StoreError _ =>
        result.2 = tbl
        ∧ AdminHandlers.orders result.1 = AdminHandlers.orders st
        ∧ AdminHandlers.selectedOrder result.1 = Some sel
        ∧ AdminHandlers.alerts result.1
          = AdminHandlers.alerts st ++ ["Failed to update order status"]
    | StoreOk =>
        AdminHandlers.alerts result.1 = AdminHandlers.alerts st
        ∧ (listReply = StoreOk → AdminHandlers.orders result.1 ≡ₚ result.2)
        ∧ match readReply with
          | StoreOk =>
              ∃ sel', AdminHandlers.selectedOrder result.1 = Some sel'
                      ∧ sel' ∈ result.2
                      ∧ id sel' = id sel
                      ∧ order_status sel' = newStatus
          | StoreError _ => AdminHandlers.selectedOrder result.1 = None
          end
    end.
Proof.
  intros Hsel Hread. cbv zeta. unfold AdminHandlers.handleStatusUpdate.
  destruct updateReply as [| e]; simpl; [| by rewrite Hsel].
  split; [done |]. rewrite Hsel, decide_True by done.
  split; [by destruct listReply |]. split.
  - intros ->. simpl. apply orderByCreatedAtDesc_perm.
  - destruct readReply as [| e]; [| done].
    apply getOrderById_rows in Hread as [_ Hrows].
    assert (Hnew :
      filter (λ r, id r = id sel) (updateWhereId (statusUpdateData now newStatus) (id sel) tbl)
      = [applyUpdate (statusUpdateData now newStatus) sel]).
    { by rewrite filter_id_updateWhereId, Hrows, list_fmap_singleton, decide_True. }
    exists (applyUpdate (statusUpdateData now newStatus) sel).
    split; [by apply getOrderById_rows |]. split.
    + assert (Hin : sel ∈ filter (λ r, id r = id sel) tbl)
        by (rewrite Hrows; apply list_elem_of_here).
      apply list_elem_of_filter in Hin as [_ Hin].
      apply list_elem_of_fmap. exists sel. by rewrite decide_True.
    + split; [done |]. simpl. unfold statusUpdateData. by case_decide.
Qed.

(** The theorem applies to the free order selected on the screen. *)
Lemma handleStatusUpdate_outcome_witness :
  let st := AdminHandlers.mkState [Samples.freeOrder] false (Some Samples.freeOrder) false [] in
  let result :=
    AdminHandlers.handleStatusUpdate StoreOk StoreOk StoreOk 5 "o1" preparing st
      [Samples.freeOrder] in
  AdminHandlers.updating result.1 = false
  ∧ AdminHandlers.alerts result.1 = []
  ∧ (StoreOk = StoreOk → AdminHandlers.orders result.1 ≡ₚ result.2)
  ∧ ∃ sel', AdminHandlers.selectedOrder result.1 = Some sel'
            ∧ sel' ∈ result.2
            ∧ id sel' = "o1"
            ∧ order_status sel' = preparing.
Proof.
  cbv zeta.
  apply (handleStatusUpdate_outcome StoreOk StoreOk StoreOk 5 preparing
           (AdminHandlers.mkState [Samples.freeOrder] false (Some Samples.freeOrder) false [])
           [Samples.freeOrder] Samples.freeOrder); reflexivity.
Defined.

(** ** The delay notice of the tracker *)

(** [isDelayed] on a stage of the service and a valid estimate. *)
Lemma isDelayed_stage (now : Z) (orderDate : JsDate.t) (s : OrderStatus) (eta : Z) :
  isDelayed now orderDate (status_name s) (Some eta)
  = bool_decide (s ≠ out_for_delivery ∧ s ≠ delivered ∧ eta < now).
Proof.
  unfold isDelayed.
  destruct (decide (s = out_for_delivery ∨ s = delivered)) as [Hs | Hs].
  - rewrite bool_decide_eq_true_2 by (destruct Hs as [-> | ->]; simpl; auto).
    rewrite bool_decide_eq_false_2; [done | tauto].
  - rewrite (bool_decide_eq_false_2 (_ ∨ _)).
    + simpl. apply bool_decide_ext. tauto.
    + destruct s; simpl; intros [H | H]; try discriminate H; tauto.
Qed.

(** For an order with no stored estimate, created at a time value
    whose ninth hour later is still a time value of a Date, the
    tracker computes a notice without failing.  It shows none while the
    order is out for delivery or delivered, or while the clock has not
    passed the ninth hour after the creation; past it, it shows the
    message of [getDelayMessage] for that estimate, which is the mild
    apology before the tenth hour, the apology with 1 or 2 hours before
    the twelfth, and the message that sends to support from then on. *)
Theorem delayNotice_from_creation (now now' : Z) (order : StarterPackOrder) :
  estimated_delivery order = None →
  Z.abs (created_at order) ≤ JsDate.maxTime →
  created_at order + 9 * Samples.hour ≤ JsDate.maxTime →
  let eta := created_at order + 9 * Samples.hour in
  let shown :=
    order_status order ≠ out_for_delivery ∧ order_status order ≠ delivered ∧ eta < now in
  (OrderTrackingView.delayNotice now now' order = Some None ↔ ¬ shown)
  ∧ (shown →
     OrderTrackingView.delayNotice now now' order
     = Some (Some (getDelayMessage now' (Some eta)))
     ∧ (now' < eta + Samples.hour → getDelayMessage now' (Some eta) = slightlyDelayed)
     ∧ (eta + Samples.hour ≤ now' < eta + 3 * Samples.hour →
        getDelayMessage now' (Some eta)
        = delayedBy (Some ((now' - eta) `div` Samples.hour))
        ∧ 1 ≤ (now' - eta) `div` Samples.hour ≤ 2)
     ∧ (eta + 3 * Samples.hour ≤ now' →
        getDelayMessage now' (Some eta) = contactSupport)).
Proof.
  intros Hnone Hlo Hhi. cbv zeta.
  assert (Heta : OrderTracking.estimatedDelivery order
                 = Some (created_at order + 9 * Samples.hour)).
  { unfold OrderTracking.estimatedDelivery, JsDate.parse. rewrite Hnone.
    rewrite timeClip_Some, calculateEstimatedDelivery_valid by done.
    apply timeClip_Some. unfold Samples.hour, JsDate.maxTime in *. lia. }
  assert (Hparse : JsDate.parse (created_at order + 9 * Samples.hour)
                   = Some (created_at order + 9 * Samples.hour)).
  { apply timeClip_Some. unfold Samples.hour, JsDate.maxTime in *. lia. }
  unfold OrderTrackingView.delayNotice. rewrite Heta, Hparse, isDelayed_stage.
  set (eta := created_at order + 9 * Samples.hour).
  split.
  - case_bool_decide as Hshown; split; done.
  - intros Hshown. split; [by rewrite bool_decide_eq_true_2 |].
    destruct Hshown as (Hofd & Hdel & Hlate).
    rewrite getDelayMessage_by_lateness. change (1000 * 60 * 60) with Samples.hour.
    split; [| split].
    + intros Hmild. by rewrite bool_decide_eq_true_2 by lia.
    + intros [Hone Hthree].
      rewrite bool_decide_eq_false_2, bool_decide_eq_true_2 by lia.
      split; [done |].
      destruct (decide (now' - eta < 2 * Samples.hour)).
      * rewrite (whole_hours (now' - eta) 1) by lia. lia.
      * rewrite (whole_hours (now' - eta) 2) by lia. lia.
    + intros Hlong.
      by rewrite !bool_decide_eq_false_2 by (unfold Samples.hour in *; lia).
Qed.

(** The theorem applies to the free order at [received], looked at
    ten and a half hours after its creation. *)
Lemma delayNotice_from_creation_witness :
  let now := Samples.newYear2024 + 10 * Samples.hour + 1800000 in
  OrderTrackingView.delayNotice now now Samples.freeOrder
  = Some (Some (getDelayMessage now (Some Samples.nineOClock2024))).
Proof.
  cbv zeta.
  apply (delayNotice_from_creation
           (Samples.newYear2024 + 10 * Samples.hour + 1800000)
           (Samples.newYear2024 + 10 * Samples.hour + 1800000) Samples.freeOrder).
  - reflexivity.
  - by vm_compute.
  - by vm_compute.
  - repeat split; by vm_compute.
Defined.

(** ** Placing an order with card payment *)


(** ** The active order of the customer page *)

(** [find] answers the first element that passes. *)
Lemma find_first {A : Type} (f : A → bool) (l : list A) (a : A) :
  List.find f l = Some a →
  ∃ l1 l2, l = l1 ++ a :: l2 ∧ f a = true ∧ Forall (λ x, f x = false) l1.
Proof.
  induction l as [| x l IH]; simpl; [done |].
  destruct (f x) eqn:Hx.
  - intros [= ->]. exists [], l. by repeat split.
  - intros (l1 & l2 & -> & Ha & Hl1)%IH. exists (x :: l1), l2.
    split; [done |]. split; [done |]. by constructor.
Qed.

(** On the list [getUserOrders] gives, the active order of the page,
    when there is one, is an order of the user in the table, paid and
    not delivered, and no order of the list that is not delivered was
    created later; there is none exactly when every order of the list
    is delivered, and then the history block holds the whole list. *)
Theorem activeOrder_of_user_orders (reply : StoreReply) (userId : string) (tbl : Table) :
  match getUserOrders reply userId tbl with
  | Resolved userOrders =>
      match StarterPackPage.activeOrder userOrders with
      | Some active =>
          active ∈ tbl
          ∧ user_id active = userId
          ∧ payment_status active = payment_completed
          ∧ order_status active ≠ delivered
          ∧ ∀ o, o ∈ userOrders → order_status o ≠ delivered →
                 created_at o ≤ created_at active
      | None =>
          (∀ o, o ∈ userOrders → order_status o = delivered)
          ∧ StarterPackPage.deliveredOrders userOrders = userOrders
      end
  | Thrown _ => True
  end.
Proof.
  destruct reply as [| e]; simpl; [| done].
  set (paid := λ o, user_id o = userId ∧ payment_status o = payment_completed).
  set (userOrders := orderByCreatedAtDesc (filter paid tbl)).
  assert (Hmem : ∀ o, o ∈ userOrders → paid o ∧ o ∈ tbl).
  { intros o. apply elem_of_orderByCreatedAtDesc_filter. }
  unfold StarterPackPage.activeOrder.
  destruct (List.find _ userOrders) as [active |] eqn:Hfind.
  - apply find_first in Hfind as (l1 & l2 & Hsplit & Hactive & Hbefore).
    apply andb_true_iff in Hactive as [Hpaid Hundelivered].
    apply bool_decide_eq_true in Hpaid.
    apply negb_true_iff, bool_decide_eq_false in Hundelivered.
    assert (Hin : active ∈ userOrders).
    { rewrite Hsplit. apply elem_of_app. right. apply list_elem_of_here. }
    destruct (Hmem _ Hin) as [[Huser _] Htbl].
    repeat split; try done.
    intros o Ho Hnot.
    pose proof (orderByCreatedAtDesc_sorted (filter paid tbl)) as Hsorted.
    fold userOrders in Hsorted. rewrite Hsplit in Hsorted, Ho.
    apply elem_of_app in Ho as [Ho | Ho].
    + exfalso. rewrite Forall_forall in Hbefore. specialize (Hbefore o Ho).
      apply andb_false_iff in Hbefore as [Hb | Hb].
      * apply bool_decide_eq_false in Hb. apply Hb.
        apply (Hmem o). rewrite Hsplit. apply elem_of_app. by left.
      * apply negb_false_iff, bool_decide_eq_true in Hb. done.
    + apply elem_of_cons in Ho as [-> | Ho]; [done |].
      apply StronglySorted_app_1_r, StronglySorted_cons in Hsorted as [Hall _].
      rewrite Forall_forall in Hall. by apply Hall.
  - assert (Hall : ∀ o, o ∈ userOrders → order_status o = delivered).
    { intros o Ho. apply list_elem_of_In in Ho.
      pose proof (List.find_none _ _ Hfind o Ho) as Hf. simpl in Hf.
      apply andb_false_iff in Hf as [Hb | Hb].
      - apply bool_decide_eq_false in Hb. exfalso. apply Hb.
        apply (Hmem o). by apply list_elem_of_In.
      - by apply negb_false_iff, bool_decide_eq_true in Hb. }
    split; [done |].
    unfold StarterPackPage.deliveredOrders.
    clear -Hall. induction userOrders as [| x l IH]; [done |].
    rewrite filter_cons_True by (apply Hall; apply list_elem_of_here).
    f_equal. apply IH. intros o Ho. apply Hall. by apply list_elem_of_further.
Qed.

(** ** Updates of an id the table does not hold *)

(** An update of an id that no row has is not an error: each updating
    method resolves when the store reports none, and leaves the table
    as it was; [getOrderById] answers null for such an id. *)
Theorem updates_of_missing_id (now : Z) (orderId paymentIntentId proofUrl : string)
    (status : OrderStatus) (settlement : SettlementStatus) (tbl : Table) :
  (∀ o, o ∈ tbl → id o ≠ orderId) →
  updateOrderStatus StoreOk now orderId status tbl = Resolved tbl
  ∧ updateOrderPaymentStatus StoreOk orderId paymentIntentId settlement tbl = Resolved tbl
  ∧ updateProofOfDelivery StoreOk orderId proofUrl tbl = Resolved tbl
  ∧ getOrderById StoreOk orderId tbl = None.
Proof.
  intros Hmissing.
  assert (Hsame : ∀ u, updateWhereId u orderId tbl = tbl).
  { intros u. unfold updateWhereId. induction tbl as [| x l IH]; [done |].
    rewrite fmap_cons, decide_False by (apply Hmissing, list_elem_of_here).
    f_equal. apply IH. intros o Ho. by apply Hmissing, list_elem_of_further. }
  unfold updateOrderStatus, updateOrderPaymentStatus, updateProofOfDelivery, settleUpdate.
  rewrite !Hsame. repeat split.
  destruct (getOrderById StoreOk orderId tbl) as [o |] eqn:Hread; [| done].
  apply getOrderById_rows in Hread as [_ Hrows].
  assert (Hin : o ∈ filter (λ r, id r = orderId) tbl)
    by (rewrite Hrows; apply list_elem_of_here).
  apply list_elem_of_filter in Hin as [Hid Hin].
  exfalso. by apply (Hmissing o).
Qed.

(** The theorem applies to the table of the free order and the id of
    another order. *)
Lemma updates_of_missing_id_witness :
  updateOrderStatus StoreOk 5 "o9" delivered [Samples.freeOrder]
  = Resolved [Samples.freeOrder]
  ∧ updateOrderPaymentStatus StoreOk "o9" "pi_123" settled_failed [Samples.freeOrder]
    = Resolved [Samples.freeOrder]
  ∧ updateProofOfDelivery StoreOk "o9" "proof.jpg" [Samples.freeOrder]
    = Resolved [Samples.freeOrder]
  ∧ getOrderById StoreOk "o9" [Samples.freeOrder] = None.
Proof.
  apply (updates_of_missing_id 5 "o9" "pi_123" "proof.jpg" delivered settled_failed
           [Samples.freeOrder]).
  intros o ->%list_elem_of_singleton. discriminate.
Defined.

(** ** What no call of the service changes *)

(** An update object of the service leaves the identity, the owner,
    the costs, the delivery address and the creation instant of a row
    alone, and does not unset its [delivered_at]. *)
Lemma builds_keeps_order (now : Z) (u : UpdateData) (o : StarterPackOrder) :
  Lifecycle.builds now u →
  let o' := applyUpdate u o in
  (id o' = id o ∧ user_id o' = user_id o ∧ restaurant_id o' = restaurant_id o
   ∧ created_at o' = created_at o)
  ∧ (includes_tablet o' = includes_tablet o ∧ tablet_cost o' = tablet_cost o
     ∧ total_cost o' = total_cost o)
  ∧ (delivery_address_line1 o' = delivery_address_line1 o
     ∧ delivery_address_line2 o' = delivery_address_line2 o
     ∧ delivery_city o' = delivery_city o
     ∧ delivery_emirate o' = delivery_emirate o
     ∧ delivery_contact_number o' = delivery_contact_number o)
  ∧ (is_Some (delivered_at o) → is_Some (delivered_at o'))
  ∧ (payment_status o ≠ payment_pending → payment_status o' ≠ payment_pending).
Proof.
  intros Hu. cbv zeta. repeat split; try done.
  - destruct Hu as [? [|] | s | ?]; simpl; try done.
    unfold statusUpdateData. case_decide; simpl; eauto.
  - destruct Hu as [? [|] | s | ?]; simpl; try done.
    unfold statusUpdateData. by case_decide.
Qed.

(** Through every history of calls of the service a row stays in the
    table, at its position, with the id, the owner, the creation
    instant, the costs and the delivery address it had; the table
    never gets shorter; and a [delivered_at] that is set stays set. *)
Theorem order_kept_through_history (history : list (Z * Lifecycle.Call)) (tbl : Table)
    (i : nat) (o : StarterPackOrder) :
  tbl !! i = Some o →
  (length tbl ≤ length (Lifecycle.performAll history tbl))%nat
  ∧ ∃ o',
      Lifecycle.performAll history tbl !! i = Some o'
      ∧ (id o' = id o ∧ user_id o' = user_id o ∧ created_at o' = created_at o)
      ∧ (includes_tablet o' = includes_tablet o ∧ tablet_cost o' = tablet_cost o
         ∧ total_cost o' = total_cost o)
      ∧ (delivery_address_line1 o' = delivery_address_line1 o
         ∧ delivery_address_line2 o' = delivery_address_line2 o
         ∧ delivery_city o' = delivery_city o
         ∧ delivery_emirate o' = delivery_emirate o
         ∧ delivery_contact_number o' = delivery_contact_number o)
      ∧ (is_Some (delivered_at o) → is_Some (delivered_at o')).
Proof.
  revert tbl o. induction history as [| [now c] rest IH]; intros tbl o Hi; simpl.
  - split; [done |]. exists o. by repeat split.
  - destruct (perform_old_row now c tbl i o Hi) as (o1 & Hi1 & Ho1).
    destruct (IH _ _ Hi1) as (Hlen & o' & Hi' & Hids & Hcost & Haddr & Hdel).
    split.
    + etrans; [| exact Hlen].
      destruct c as [[filled | e] ? ? ? ? | [| e] ? ? ? | [| e] ? ? | [| e] ? ?]; simpl;
        rewrite ?length_app, ?updateWhereId_length; simpl; lia.
    + exists o'. split; [done |].
      destruct Ho1 as [-> | (u & Hu & ->)]; [done |].
      destruct (builds_keeps_order now u o Hu)
        as ((? & ? & ? & ?) & (? & ? & ?) & (? & ? & ? & ? & ?) & Hkeep & _).
      destruct Hids as (? & ? & ?), Hcost as (? & ? & ?), Haddr as (? & ? & ? & ? & ?).
      repeat split; try congruence. intros Hset. by apply Hdel, Hkeep.
Qed.

(** The theorem applies to the free order through its delivery and a
    later update back to [received]. *)
Lemma order_kept_through_history_witness :
  let history := drop 1 (Samples.deliveredThen 10 11 received) in
  (length [Samples.freeOrder] ≤ length (Lifecycle.performAll history [Samples.freeOrder]))%nat
  ∧ ∃ o',
      Lifecycle.performAll history [Samples.freeOrder] !! 0%nat = Some o'
      ∧ (id o' = "o1" ∧ user_id o' = "u1" ∧ created_at o' = Samples.newYear2024)
      ∧ (includes_tablet o' = false ∧ tablet_cost o' = 0 ∧ total_cost o' = 0)
      ∧ (delivery_address_line1 o' = delivery_address_line1 Samples.freeOrder
         ∧ delivery_address_line2 o' = delivery_address_line2 Samples.freeOrder
         ∧ delivery_city o' = delivery_city Samples.freeOrder
         ∧ delivery_emirate o' = delivery_emirate Samples.freeOrder
         ∧ delivery_contact_number o' = delivery_contact_number Samples.freeOrder)
      ∧ (is_Some (delivered_at Samples.freeOrder) → is_Some (delivered_at o')).
Proof.
  cbv zeta.
  apply (order_kept_through_history (drop 1 (Samples.deliveredThen 10 11 received))
           [Samples.freeOrder] 0 Samples.freeOrder).
  reflexivity.
Defined.

(** No table the service can produce holds an order whose payment is
    [pending]: an order is created with its payment [completed], and a
    settlement records [completed] or [failed]. *)
Theorem payment_never_pending (tbl : Table) (o : StarterPackOrder) :
  Lifecycle.reachable tbl → o ∈ tbl → payment_status o ≠ payment_pending.
Proof.
  intros [history ->].
  assert (Hgen : ∀ start,
    (∀ r, r ∈ start → payment_status r ≠ payment_pending) →
    ∀ r, r ∈ Lifecycle.performAll history start → payment_status r ≠ payment_pending).
  { induction history as [| [now c] rest IH]; intros start Hstart; simpl; [done |].
    apply IH. intros r [(r0 & Hr0 & Hcase) | Hnew]%perform_rows.
    - destruct Hcase as [-> | (u & Hu & ->)]; [by apply Hstart |].
      by apply (builds_keeps_order now u r0 Hu), Hstart.
    - by destruct Hnew as (? & ? & ? & ? & ? & ->). }
  apply Hgen. by intros r ?%elem_of_nil.
Qed.

(** The theorem applies to the free order after a failed settlement. *)
Lemma payment_never_pending_witness :
  payment_status
    (applyUpdate (paymentUpdateData "pi_123" settled_failed) Samples.freeOrder)
  ≠ payment_pending.
Proof.
  apply (payment_never_pending
           (Lifecycle.performAll
              [ (Samples.newYear2024,
                 Lifecycle.CreateOrder (InsertOk (Samples.filled "o1" Samples.newYear2024))
                   "u1" false Samples.address None);
                (Samples.newYear2024 + 1,
                 Lifecycle.UpdateOrderPaymentStatus StoreOk "o1" "pi_123" settled_failed) ]
              [])).
  - by eexists.
  - vm_compute. apply list_elem_of_here.
Defined.

(** ** What the other two updates leave alone *)

(** After [updateOrderPaymentStatus] and after [updateProofOfDelivery],
    whatever the store replied, every row of the table is at its
    position with its [delivered_at], audit trail, estimated delivery,
    costs and delivery address as before.  The settlement changes the
    payment state and the settlement reference of the rows of the
    given id only, and never the proof reference; the proof update
    changes the proof reference of the rows of the given id only, and
    neither the stage nor the payment state nor the settlement
    reference. *)
Theorem payment_and_proof_updates_frame (settleReply proofReply : StoreReply)
    (orderId paymentIntentId proofUrl : string) (settlement : SettlementStatus)
    (tbl : Table) :
  let kept (o o' : StarterPackOrder) :=
    (id o' = id o ∧ user_id o' = user_id o ∧ created_at o' = created_at o)
    ∧ (delivered_at o' = delivered_at o
       ∧ status_timestamps o' = status_timestamps o
       ∧ estimated_delivery o' = estimated_delivery o)
    ∧ (includes_tablet o' = includes_tablet o ∧ tablet_cost o' = tablet_cost o
       ∧ total_cost o' = total_cost o)
    ∧ (delivery_address_line1 o' = delivery_address_line1 o
       ∧ delivery_address_line2 o' = delivery_address_line2 o
       ∧ delivery_city o' = delivery_city o
       ∧ delivery_emirate o' = delivery_emirate o
       ∧ delivery_contact_number o' = delivery_contact_number o) in
  Forall2
    (λ o o',
       kept o o'
       ∧ proof_of_delivery_url o' = proof_of_delivery_url o
       ∧ (id o ≠ orderId →
          payment_status o' = payment_status o
          ∧ stripe_payment_intent_id o' = stripe_payment_intent_id o
          ∧ order_status o' = order_status o))
    tbl
    (Lifecycle.after
       (updateOrderPaymentStatus settleReply orderId paymentIntentId settlement tbl) tbl)
  ∧ Forall2
      (λ o o',
         kept o o'
         ∧ order_status o' = order_status o
         ∧ payment_status o' = payment_status o
         ∧ stripe_payment_intent_id o' = stripe_payment_intent_id o
         ∧ (id o ≠ orderId → proof_of_delivery_url o' = proof_of_delivery_url o))
      tbl
      (Lifecycle.after (updateProofOfDelivery proofReply orderId proofUrl tbl) tbl).
Proof.
  cbv zeta. unfold updateOrderPaymentStatus, updateProofOfDelivery.
  rewrite !after_settleUpdate. split.
  - destruct settleReply as [| e].
    + unfold updateWhereId. apply Forall2_fmap_r, Forall_Forall2_diag, Forall_forall.
      intros o _. unfold compose. cbv beta. case_decide as Hid; [| tauto].
      destruct settlement; simpl; tauto.
    + apply Forall_Forall2_diag, Forall_forall. intros o _. tauto.
  - destruct proofReply as [| e].
    + unfold updateWhereId. apply Forall2_fmap_r, Forall_Forall2_diag, Forall_forall.
      intros o _. unfold compose. cbv beta. case_decide as Hid; [| tauto].
      simpl. tauto.
    + apply Forall_Forall2_diag, Forall_forall. intros o _. tauto.
Qed.

(** ** The messages [getDelayMessage] can give *)

(** Whatever the clock and the estimate, an Invalid Date included,
    [getDelayMessage] gives one of four texts: the mild apology, the
    apology with "1 hour", the apology with "2 hours", or the message
    that sends to support.  It gives the mild apology whenever the
    estimate is not yet passed, and the message that sends to support
    for an Invalid Date. *)
Theorem getDelayMessage_four_texts (now : Z) (estimatedDelivery : JsDate.t) :
  getDelayMessage now estimatedDelivery
  ∈ [ slightlyDelayed;
      "Your order is delayed by approximately 1 hour. Our team is working to get it to you as soon as possible.";
      "Your order is delayed by approximately 2 hours. Our team is working to get it to you as soon as possible.";
      contactSupport ]
  ∧ (∀ eta, estimatedDelivery = Some eta → now ≤ eta →
       getDelayMessage now estimatedDelivery = slightlyDelayed)
  ∧ (estimatedDelivery = None → getDelayMessage now estimatedDelivery = contactSupport).
Proof.
  split; [| split].
  - destruct estimatedDelivery as [eta |]; [| do 3 right; left].
    rewrite getDelayMessage_by_lateness. change (1000 * 60 * 60) with Samples.hour.
    case_bool_decide as Hmild; [left |]. case_bool_decide as Hlong; [| do 3 right; left].
    destruct (decide (now - eta < 2 * Samples.hour)).
    + rewrite (whole_hours (now - eta) 1) by lia. right; left.
    + rewrite (whole_hours (now - eta) 2) by lia. do 2 right; left.
  - intros eta -> Hearly. rewrite getDelayMessage_by_lateness.
    rewrite bool_decide_eq_true_2; [done |]. unfold Samples.hour. lia.
  - by intros ->.
Qed.

(** ** The entries of the audit trail *)

(** The lemma on kept entries applies to the free order through its
    delivery and a later update back to [received]: its entry for
    [received] is still the instant of its creation. *)
Lemma status_timestamps_entries_kept_witness :
  ∃ o',
    Lifecycle.performAll (drop 1 (Samples.deliveredThen 10 11 received))
      [Samples.freeOrder] !! 0%nat = Some o'
    ∧ id o' = id Samples.freeOrder
    ∧ status_timestamps o' ≫= lookup "received" = Some Samples.newYear2024.
Proof.
  apply (status_timestamps_entries_kept (drop 1 (Samples.deliveredThen 10 11 received))
           [Samples.freeOrder] 0 Samples.freeOrder "received" Samples.newYear2024).
  - reflexivity.
  - by vm_compute.
Defined.
